(** * Health-analysis backend: a shallow embedding and its verified properties

    The development follows the Python sources file by file:
    - [Py]: the fragment of Python the sources rely on (exceptions, numbers,
      [round], [dict.get], string helpers, decoded JSON values);
    - [MultiAgentSystem]: [AI/multi_agent_system.py] (trend detector, anomaly
      detector, wellness scorer);
    - [GeminiAgent]: [AI/gemini_agent.py] (LLM insight agent and its fallback);
    - [SessionMemory]: [AI/session_memory.py] (in-memory sessions, durable
      memory bank, memory manager);
    - [NavbarAI]: [app/navbar_ai.py] (the /ai/* endpoints);
    - [InsightGenerator] and [MultiAgentHealthSystem]: the insight agent and
      the orchestrator of [AI/multi_agent_system.py], which build on
      [GeminiAgent].

    Modelling conventions.  Python numbers (int and float) are exact rationals
    [Q]: float rounding error, infinities and NaN are not modelled.
    [datetime] values are integer microsecond timestamps ([Z]) on an unbounded
    time line, and every [datetime.now()] is an explicit argument.  A Python
    [dict] with string keys is a [gmap string _] or, where it is built from a
    literal or decoded from JSON, a [Py.json] value; a key that may be missing
    is an [option] field; a list is a [list].  Code that can raise lives in
    the [result] monad of module [Py]; the hosted completion service and
    [json.loads] are parameters that may return or raise anything. *)

From Stdlib Require Import QArith Qround Qabs Qminmax Lqa Lia ZArith Ascii.
From stdpp Require Import gmap strings list fin_maps sorting pretty.

Local Open Scope Q_scope.

(* ===================================================================== *)
(** * The Python fragment                                                  *)
(* ===================================================================== *)
Module Py.

(** Exceptions that the sources can meet.  All of them are subclasses of
    [Exception]; [JSONDecodeError] is the one class a handler singles out. *)
Inductive exn : Type :=
| JSONDecodeError (msg : string)
| TypeError (msg : string)
| KeyError (key : string)
| IndexError (msg : string)
| Exception (msg : string).

(** [str(e)] *)
Definition str_exn (e : exn) : string :=
  match e with
  | JSONDecodeError m => m
  | TypeError m => m
  | KeyError k => k
  | IndexError m => m
  | Exception m => m
  end.

Definition is_JSONDecodeError (e : exn) : bool :=
  match e with JSONDecodeError _ => true | _ => false end.

(** A computation either returns a value or raises. *)
Inductive result (A : Type) : Type :=
| Ok (a : A)
| Raise (e : exn).
Arguments Ok {A} a.
Arguments Raise {A} e.

Definition bind {A B} (m : result A) (k : A -> result B) : result B :=
  match m with
  | Ok a => k a
  | Raise e => Raise e
  end.

(** The returned value, if any. *)
Definition option_of {A} (m : result A) : option A :=
  match m with
  | Ok a => Some a
  | Raise _ => None
  end.

(** [try: body  except Exception as e: handler(e)] *)
Definition try_except {A} (body : result A) (handler : exn -> result A) : result A :=
  match body with
  | Ok a => Ok a
  | Raise e => handler e
  end.

(** [try: body  except json.JSONDecodeError: handler]; other exceptions
    pass through. *)
Definition try_except_json {A} (body : result A) (handler : result A) : result A :=
  match body with
  | Ok a => Ok a
  | Raise e => if is_JSONDecodeError e then handler else Raise e
  end.

Module Notations.
Notation "'let*' x ':=' m 'in' k" := (bind m (fun x => k))
  (at level 10, x name, m at level 100, k at level 200).
End Notations.

(** ** Numbers *)

Definition lt (x y : Q) : bool := match Qcompare x y with Lt => true | _ => false end.
Definition gt (x y : Q) : bool := lt y x.
Definition le (x y : Q) : bool := negb (lt y x).
Definition ge (x y : Q) : bool := le y x.

(** Python's [round(x)]: to the nearest integer, ties to the even one. *)
Definition round_half_even (x : Q) : Z :=
  let f := Qfloor x in
  match Qcompare (x - inject_Z f) (1 # 2) with
  | Lt => f
  | Gt => (f + 1)%Z
  | Eq => if Z.even f then f else (f + 1)%Z
  end.

(** Python's [round(x, ndigits)] for [ndigits >= 0]. *)
Definition round (x : Q) (ndigits : nat) : Q :=
  let scale := inject_Z (10 ^ Z.of_nat ndigits) in
  inject_Z (round_half_even (x * scale)) / scale.

(** [d.get(key, dflt)] on a dict of numbers. *)
Definition get (d : gmap string Q) (key : string) (dflt : Q) : Q :=
  default dflt (d !! key).

(** [xs[:n]] for [n >= 0]. *)
Definition slice_to {A} (n : nat) (xs : list A) : list A := take n xs.

(** [[f(x) for x in xs]] where [f] may raise: the first failure aborts. *)
Fixpoint comprehension {A B} (f : A -> result B) (xs : list A) : result (list B) :=
  match xs with
  | [] => Ok []
  | x :: xs' =>
      match f x with
      | Ok y =>
          match comprehension f xs' with
          | Ok ys => Ok (y :: ys)
          | Raise e => Raise e
          end
      | Raise e => Raise e
      end
  end.

(** [for x in xs: acc = body(acc, x)] where [body] may raise. *)
Fixpoint for_each {A S} (body : S -> A -> result S) (acc : S) (xs : list A) : result S :=
  match xs with
  | [] => Ok acc
  | x :: xs' =>
      match body acc x with
      | Ok acc' => for_each body acc' xs'
      | Raise e => Raise e
      end
  end.

(** [xs[0]] and [xs[-1]] *)
Definition first {A} (xs : list A) : result A :=
  match head xs with
  | Some x => Ok x
  | None => Raise (IndexError "list index out of range")
  end.

Definition final {A} (xs : list A) : result A :=
  match last xs with
  | Some x => Ok x
  | None => Raise (IndexError "list index out of range")
  end.

(** ** Strings *)

Definition is_space (c : ascii) : bool :=
  let n := nat_of_ascii c in
  bool_decide (n = 32 \/ (9 <= n /\ n <= 13) \/ (28 <= n /\ n <= 31))%nat.

(** [s.lstrip()], [s.rstrip()] and [s.strip()] *)
Fixpoint lstrip (s : string) : string :=
  match s with
  | EmptyString => EmptyString
  | String c s' => if is_space c then lstrip s' else s
  end.

Fixpoint rstrip (s : string) : string :=
  match s with
  | EmptyString => EmptyString
  | String c s' =>
      let r := rstrip s' in
      if is_space c && bool_decide (r = EmptyString) then EmptyString else String c r
  end.

Definition strip (s : string) : string := rstrip (lstrip s).

(** [s.strip(c)] for a single character [c] *)
Fixpoint lstrip_char (c : ascii) (s : string) : string :=
  match s with
  | EmptyString => EmptyString
  | String a s' => if Ascii.eqb a c then lstrip_char c s' else s
  end.

Fixpoint rstrip_char (c : ascii) (s : string) : string :=
  match s with
  | EmptyString => EmptyString
  | String a s' =>
      let r := rstrip_char c s' in
      if Ascii.eqb a c && bool_decide (r = EmptyString) then EmptyString else String a r
  end.

Definition strip_char (c : ascii) (s : string) : string :=
  rstrip_char c (lstrip_char c s).

(** [s.lower()], on ASCII letters *)
Definition lower_ascii (c : ascii) : ascii :=
  let n := nat_of_ascii c in
  if bool_decide (65 <= n /\ n <= 90)%nat then ascii_of_nat (n + 32) else c.

Fixpoint lower (s : string) : string :=
  match s with
  | EmptyString => EmptyString
  | String c s' => String (lower_ascii c) (lower s')
  end.

(** [sub in s] *)
Definition contains (sub s : string) : bool :=
  match String.index 0 sub s with
  | Some _ => true
  | None => bool_decide (sub = EmptyString)
  end.

(** [s.split(c)] for a single character [c] *)
Fixpoint split (c : ascii) (s : string) : list string :=
  match s with
  | EmptyString => [EmptyString]
  | String a s' =>
      if Ascii.eqb a c then EmptyString :: split c s'
      else match split c s' with
           | piece :: pieces => String a piece :: pieces
           | [] => [String a EmptyString]
           end
  end.

Fixpoint index_of (c : ascii) (s : string) : option nat :=
  match s with
  | EmptyString => None
  | String a s' => if Ascii.eqb a c then Some 0%nat else S <$> index_of c s'
  end.

Fixpoint rindex_of (c : ascii) (s : string) : option nat :=
  match s with
  | EmptyString => None
  | String a s' =>
      match rindex_of c s' with
      | Some n => Some (S n)
      | None => if Ascii.eqb a c then Some 0%nat else None
      end
  end.

(** [s.find(c)] and [s.rfind(c)]: [-1] when [c] does not occur. *)
Definition find (s : string) (c : ascii) : Z :=
  match index_of c s with
  | Some n => Z.of_nat n
  | None => (-1)%Z
  end.

Definition rfind (s : string) (c : ascii) : Z :=
  match rindex_of c s with
  | Some n => Z.of_nat n
  | None => (-1)%Z
  end.

(** [s[start:stop]]; a negative index counts from the end. *)
Definition slice (s : string) (start stop : Z) : string :=
  let len := Z.of_nat (String.length s) in
  let norm i := if (i <? 0)%Z then Z.max 0 (i + len) else Z.min i len in
  let a := norm start in
  let b := norm stop in
  String.substring (Z.to_nat a) (Z.to_nat (b - a)) s.

(** [len(s)] *)
Definition len (s : string) : Z := Z.of_nat (String.length s).

(** ** Decoded JSON values, and the dicts built from literals *)
#[local] Unset Elimination Schemes.
Inductive json : Type :=
| JNull
| JBool (b : bool)
| JNum (q : Q)
| JStr (s : string)
| JList (items : list json)
| JDict (fields : list (string * json)).
#[local] Set Elimination Schemes.

Definition strs (l : list string) : json := JList (map JStr l).

(** [d.get(key)] on a dict value; [None] on a miss. *)
Definition lookup (key : string) (d : json) : option json :=
  match d with
  | JDict fields => snd <$> List.find (fun kv => String.eqb (fst kv) key) fields
  | _ => None
  end.

(** ** Facts about the fragment *)

Lemma lt_spec x y : lt x y = true <-> x < y.
Proof.
  unfold lt. rewrite Qlt_alt. destruct (Qcompare x y); split; congruence.
Qed.

Lemma lt_reflect x y : reflect (x < y) (lt x y).
Proof. apply iff_reflect. symmetry. apply lt_spec. Qed.

Lemma le_reflect x y : reflect (x <= y) (le x y).
Proof. unfold le. destruct (lt_reflect y x); constructor; lra. Qed.

Lemma gt_reflect x y : reflect (y < x) (gt x y).
Proof. apply lt_reflect. Qed.

Lemma ge_reflect x y : reflect (y <= x) (ge x y).
Proof. apply le_reflect. Qed.

(** Case analysis on every comparison of the goal. *)
Ltac cmp_cases :=
  repeat match goal with
         | |- context [lt ?x ?y] => destruct (lt_reflect x y)
         | |- context [le ?x ?y] => destruct (le_reflect x y)
         | |- context [gt ?x ?y] => destruct (gt_reflect x y)
         | |- context [ge ?x ?y] => destruct (ge_reflect x y)
         end; simpl.

Lemma round_half_even_comp x y : x == y -> round_half_even x = round_half_even y.
Proof.
  intros E. unfold round_half_even.
  rewrite (Qfloor_comp x y E).
  assert (Ec : Qcompare (x - inject_Z (Qfloor y)) (1 # 2)
               = Qcompare (y - inject_Z (Qfloor y)) (1 # 2)) by (rewrite E; reflexivity).
  rewrite Ec. reflexivity.
Qed.

Lemma round_comp x y d : x == y -> round x d == round y d.
Proof.
  intros E. unfold round.
  rewrite (round_half_even_comp (x * _) (y * inject_Z (10 ^ Z.of_nat d))).
  - reflexivity.
  - rewrite E. reflexivity.
Qed.

(** Rounding never leaves an interval with integer end points. *)
Lemma round_half_even_bounds (a b : Z) (y : Q) :
  inject_Z a <= y -> y <= inject_Z b -> (a <= round_half_even y <= b)%Z.
Proof.
  intros Ha Hb.
  assert (Hfa : (a <= Qfloor y)%Z).
  { rewrite <- (Qfloor_Z a). by apply Qfloor_resp_le. }
  assert (Hfb : (Qfloor y <= b)%Z).
  { rewrite <- (Qfloor_Z b). by apply Qfloor_resp_le. }
  pose proof (Qfloor_le y) as Hfl.
  unfold round_half_even.
  destruct (Qcompare (y - inject_Z (Qfloor y)) (1 # 2)) eqn:Hc.
  - apply Qeq_alt in Hc.
    assert (Hlt : inject_Z (Qfloor y) < inject_Z b) by lra.
    rewrite <- Zlt_Qlt in Hlt.
    destruct (Z.even (Qfloor y)); lia.
  - lia.
  - apply Qgt_alt in Hc.
    assert (Hlt : inject_Z (Qfloor y) < inject_Z b) by lra.
    rewrite <- Zlt_Qlt in Hlt. lia.
Qed.

Lemma round_bounds (a b : Z) (x : Q) (d : nat) :
  inject_Z a <= x -> x <= inject_Z b ->
  inject_Z a <= round x d /\ round x d <= inject_Z b.
Proof.
  intros Ha Hb. unfold round.
  set (s := (10 ^ Z.of_nat d)%Z).
  assert (Hs : (0 < s)%Z) by (apply Z.pow_pos_nonneg; lia).
  assert (HsQ : 0 < inject_Z s) by (rewrite (Zlt_Qlt 0 s) in Hs; exact Hs).
  destruct (round_half_even_bounds (a * s) (b * s) (x * inject_Z s)) as [H1 H2].
  - rewrite inject_Z_mult. apply Qmult_le_compat_r; lra.
  - rewrite inject_Z_mult. apply Qmult_le_compat_r; lra.
  - rewrite Zle_Qle, inject_Z_mult in H1. rewrite Zle_Qle, inject_Z_mult in H2.
    split.
    + apply Qle_shift_div_l; [exact HsQ | exact H1].
    + apply Qle_shift_div_r; [exact HsQ | exact H2].
Qed.

Lemma substring_zero_length (n : nat) (s : string) : String.substring n 0 s = EmptyString.
Proof. revert n. induction s as [| a s IH]; intros [| n]; simpl; auto. Qed.

Lemma index_of_substring (c : ascii) (s : string) (n m : nat) :
  index_of c s = Some n ->
  exists rest, String.substring n (S m) s = String c rest.
Proof.
  revert n. induction s as [| a s IH]; intros n H; simpl in H; [discriminate |].
  destruct (Ascii.eqb a c) eqn:E.
  - apply Ascii.eqb_eq in E. injection H as <-. subst a. simpl. eauto.
  - destruct (index_of c s) as [k |] eqn:Ek; simpl in H; [| discriminate].
    injection H as <-. simpl. by apply IH.
Qed.

Lemma index_of_lt (c : ascii) (s : string) (n : nat) :
  index_of c s = Some n -> (n < String.length s)%nat.
Proof.
  revert n. induction s as [| a s IH]; intros n H; simpl in H; [discriminate |].
  destruct (Ascii.eqb a c).
  - injection H as <-. simpl. lia.
  - destruct (index_of c s) as [k |]; simpl in H; [| discriminate].
    injection H as <-. simpl. specialize (IH k eq_refl). lia.
Qed.

(** A slice that starts where [find] found [c] is empty or starts with [c]. *)
Lemma slice_from_find (s : string) (c : ascii) (stop : Z) :
  find s c <> (-1)%Z ->
  slice s (find s c) stop = EmptyString \/
  exists rest, slice s (find s c) stop = String c rest.
Proof.
  unfold find. destruct (index_of c s) as [n |] eqn:E; [intros _ | congruence].
  pose proof (index_of_lt _ _ _ E) as Hlt.
  unfold slice.
  replace (if (Z.of_nat n <? 0)%Z then Z.max 0 (Z.of_nat n + Z.of_nat (String.length s))
           else Z.min (Z.of_nat n) (Z.of_nat (String.length s))) with (Z.of_nat n).
  2:{ destruct (Z.ltb_spec (Z.of_nat n) 0); lia. }
  rewrite Nat2Z.id.
  match goal with |- context [Z.to_nat ?d] => destruct (Z.to_nat d) as [| m] end.
  - left. apply substring_zero_length.
  - right. by apply index_of_substring.
Qed.

Lemma strip_empty : strip EmptyString = EmptyString.
Proof. reflexivity. Qed.

Lemma strip_keeps_head (c : ascii) (rest : string) :
  is_space c = false -> strip (String c rest) = String c (rstrip rest).
Proof. intros H. unfold strip. simpl. rewrite H. simpl. by rewrite H. Qed.

End Py.

Import Py.Notations.

(* ===================================================================== *)
(** * AI/multi_agent_system.py                                             *)
(* ===================================================================== *)
Module MultiAgentSystem.

(** ** Data *)

(** One entry of [data['timeseries']]: a dict whose keys ['day'], ['metric']
    and ['value'] may each be missing. *)
Record Item : Type := {
  item_day : option string;
  item_metric : option string;
  item_value : option Q
}.

(** [item['value']] *)
Definition getitem_value (item : Item) : Py.result Q :=
  match item_value item with
  | Some v => Py.Ok v
  | None => Py.Raise (Py.KeyError "value")
  end.

(** The dict stored under [trends[metric_name]]. *)
Record TrendResult : Type := {
  trend : string;
  change_percent : Q;
  recommendation : string
}.

(** One element of the anomaly list. *)
Record Anomaly : Type := {
  date : option string;
  metric : option string;
  value : Q;
  severity : string;
  message : string
}.

Record AgentResults : Type := {
  ar_trends : option (gmap string TrendResult);
  ar_anomalies : option (list Anomaly)
}.

(** The [health_data] dict handed to the agents. *)
Record HealthData : Type := {
  summary : option (gmap string Q);
  timeseries : option (list Item);
  agent_results : option AgentResults
}.

(** ** Trend detector *)
Module TrendAnalysisAgent.

Record Analysis : Type := {
  trends : gmap string TrendResult;
  confidence : Q
}.

Definition _get_recommendation (metric trend : string) (change : Q) : string :=
  if bool_decide (metric = "steps") && bool_decide (trend = "decreasing")
  then "Consider increasing daily physical activity"
  else if bool_decide (metric = "sleep") && bool_decide (trend = "decreasing")
  then "Focus on improving sleep hygiene"
  else if bool_decide (metric = "heart_rate") && Py.gt (Qabs change) 10
  then "Monitor heart rate patterns closely"
  else "Maintain current healthy patterns".

(** The body of the loop over metric names: the updated [trends]. *)
Definition analyze_metric (metrics : list Item)
    (trends : gmap string TrendResult) (metric_name : string)
  : Py.result (gmap string TrendResult) :=
  let metric_data := filter (fun item => item_metric item = Some metric_name) metrics in
  if bool_decide (2 <= length metric_data)%nat then
    let* values := Py.comprehension getitem_value metric_data in
    let* v_last := Py.final values in
    let* v_first := Py.first values in
    let trend := if Py.gt v_last v_first then "increasing" else "decreasing" in
    let change := if Py.gt v_first 0 then ((v_last - v_first) / v_first) * 100 else 0 in
    Py.Ok (<[metric_name :=
               {| trend := trend;
                  change_percent := Py.round change 2;
                  recommendation := _get_recommendation metric_name trend change |}]>
             trends)
  else Py.Ok trends.

Definition tracked_metrics : list string := ["steps"; "heart_rate"; "sleep"; "water"].

Definition _analyze (data : HealthData) : Py.result Analysis :=
  let metrics := default [] (timeseries data) in
  let trends := ∅ in
  let* trends := Py.for_each (analyze_metric metrics) trends tracked_metrics in
  Py.Ok {| trends := trends; confidence := 85 # 100 |}.

End TrendAnalysisAgent.

(** ** Anomaly detector *)
Module AnomalyDetectionAgent.

Record Analysis : Type := {
  anomalies : list Anomaly;
  risk_score : Q
}.

(** The body of the loop over the time series: the updated [anomalies]. *)
Definition scan_item (anomalies : list Anomaly) (item : Item) : list Anomaly :=
  let metric := item_metric item in
  let value := default 0 (item_value item) in
  if bool_decide (metric = Some "heart_rate") && Py.gt value 100 then
    anomalies ++ [ {| date := item_day item; metric := metric; value := value;
                      severity := "high";
                      message := "Elevated resting heart rate detected" |} ]
  else if bool_decide (metric = Some "sleep") && Py.lt value 5 then
    anomalies ++ [ {| date := item_day item; metric := metric; value := value;
                      severity := "medium";
                      message := "Insufficient sleep duration" |} ]
  else if bool_decide (metric = Some "steps") && Py.lt value 3000 then
    anomalies ++ [ {| date := item_day item; metric := metric; value := value;
                      severity := "low";
                      message := "Low daily activity level" |} ]
  else anomalies.

Definition _analyze (data : HealthData) : Analysis :=
  let anomalies := [] in
  let timeseries := default [] (timeseries data) in
  let anomalies := foldl scan_item anomalies timeseries in
  {| anomalies := anomalies;
     risk_score := inject_Z (Z.of_nat (length anomalies)) * (2 # 10) |}.

End AnomalyDetectionAgent.

(** ** Wellness scorer: [InsightGeneratorAgent._calculate_wellness_score] *)
Module InsightGeneratorAgent.

(** The four blocks of the function, each adding its points to [score]. *)

(** Steps score (0-25 points) *)
Definition steps_points (steps : Q) : Q :=
  if Py.ge steps 10000 then 25
  else if Py.ge steps 8000 then 20
  else if Py.ge steps 5000 then 15
  else Qmax 0 (steps / 500).

(** Sleep score (0-25 points) *)
Definition sleep_points (sleep : Q) : Q :=
  if Py.le 7 sleep && Py.le sleep 9 then 25
  else if (Py.le 6 sleep && Py.lt sleep 7) || (Py.lt 9 sleep && Py.le sleep 10) then 20
  else Qmax 0 (25 - Qabs (sleep - 8) * 5).

(** Heart rate score (0-25 points) *)
Definition heart_rate_points (hr : Q) : Q :=
  if Py.le 60 hr && Py.le hr 80 then 25
  else if (Py.le 50 hr && Py.lt hr 60) || (Py.lt 80 hr && Py.le hr 90) then 20
  else Qmax 0 (25 - Qabs (hr - 70) * 2).

(** Water score (0-25 points) *)
Definition water_points (water : Q) : Q :=
  if Py.ge water 2000 then 25
  else if Py.ge water 1500 then 20
  else Qmax 0 (water / 100).

Definition _calculate_wellness_score (summary : gmap string Q) : Q :=
  let score := 0 in
  let factors := 0 in
  let steps := Py.get summary "steps_avg_7d" 0 in
  let score := score + steps_points steps in
  let factors := factors + 25 in
  let sleep := Py.get summary "sleep_avg_7d" 0 in
  let score := score + sleep_points sleep in
  let factors := factors + 25 in
  let hr := Py.get summary "heart_rate_avg_7d" 0 in
  let score := score + heart_rate_points hr in
  let factors := factors + 25 in
  let water := Py.get summary "water_avg_7d" 0 in
  let score := score + water_points water in
  let factors := factors + 25 in
  if Py.gt factors 0 then Py.round ((score / factors) * 100) 1 else 0.

End InsightGeneratorAgent.
Import InsightGeneratorAgent.

(** ** The trend detector compares the first and last value in input order *)

(** [item.get('value', 0)] *)
Definition observed_value (item : Item) : Q := default 0 (item_value item).

(** The records of a metric, in the order of the input. *)
Definition observations (series : list Item) (metric_name : string) : list Item :=
  filter (fun item => item_metric item = Some metric_name) series.

(** Their values, in the same order. *)
Definition observed_values (series : list Item) (metric_name : string) : list Q :=
  omap item_value (observations series metric_name).

Definition has_value (item : Item) : Prop := is_Some (item_value item).

(** What the detector stores for a metric with values [values]. *)
Definition trend_entry (metric_name : string) (values : list Q) : option TrendResult :=
  match head values, last values with
  | Some v_first, Some v_last =>
      if bool_decide (2 <= length values)%nat then
        let trend := if Py.gt v_last v_first then "increasing" else "decreasing" in
        let change := if Py.gt v_first 0 then ((v_last - v_first) / v_first) * 100 else 0 in
        Some {| trend := trend;
                change_percent := Py.round change 2;
                recommendation := TrendAnalysisAgent._get_recommendation metric_name trend change |}
      else None
  | _, _ => None
  end.

Definition record_trend (metric_name : string) (entry : option TrendResult)
    (trends : gmap string TrendResult) : gmap string TrendResult :=
  match entry with
  | Some t => <[metric_name := t]> trends
  | None => trends
  end.

Lemma comprehension_values (items : list Item) :
  Forall has_value items ->
  Py.comprehension getitem_value items = Py.Ok (omap item_value items) /\
  length (omap item_value items) = length items.
Proof.
  induction 1 as [| item items [v Hv] _ [IH1 IH2]]; [done |].
  simpl. unfold getitem_value at 1. rewrite Hv, IH1. simpl.
  split; [reflexivity | f_equal; exact IH2].
Qed.

Lemma analyze_metric_total series trends metric_name :
  Forall has_value series ->
  TrendAnalysisAgent.analyze_metric series trends metric_name =
  Py.Ok (record_trend metric_name
           (trend_entry metric_name (observed_values series metric_name)) trends).
Proof.
  intros Hall.
  assert (Hobs : Forall has_value (observations series metric_name)).
  { rewrite Forall_forall in Hall |- *. intros item Hin.
    apply list_elem_of_filter in Hin as [_ Hin]. by apply Hall. }
  destruct (comprehension_values _ Hobs) as [Hc Hlen].
  unfold TrendAnalysisAgent.analyze_metric, trend_entry, observed_values.
  fold (observations series metric_name).
  rewrite Hlen.
  case_bool_decide as H2.
  - rewrite Hc. simpl.
    destruct (omap item_value (observations series metric_name)) as [| v l] eqn:E.
    { simpl in Hlen. lia. }
    unfold Py.final, Py.first.
    destruct (last (v :: l)) as [vl |] eqn:El.
    + reflexivity.
    + apply last_None in El. discriminate.
  - by repeat case_match.
Qed.

Lemma analyze_total data :
  Forall has_value (default [] (timeseries data)) ->
  exists analysis,
    TrendAnalysisAgent._analyze data = Py.Ok analysis /\
    forall metric_name, metric_name ∈ TrendAnalysisAgent.tracked_metrics ->
      TrendAnalysisAgent.trends analysis !! metric_name =
      trend_entry metric_name
        (observed_values (default [] (timeseries data)) metric_name).
Proof.
  intros Hall. unfold TrendAnalysisAgent._analyze.
  set (series := default [] (timeseries data)) in *.
  unfold TrendAnalysisAgent.tracked_metrics. simpl.
  rewrite !(analyze_metric_total series _ _ Hall). simpl.
  eexists; split; [reflexivity |].
  intros m Hm. simpl.
  repeat (apply elem_of_cons in Hm as [-> | Hm]);
    [ .. | by apply elem_of_nil in Hm ];
    unfold record_trend;
    repeat match goal with
           | |- context [trend_entry ?k ?vs] =>
               destruct (trend_entry k vs) eqn:?
           end;
    simplify_map_eq; done.
Qed.

Definition mk_item (day metric_name : string) (v : Q) : Item :=
  {| item_day := Some day; item_metric := Some metric_name; item_value := Some v |}.

Definition series_data (series : list Item) : HealthData :=
  {| summary := None; timeseries := Some series; agent_results := None |}.

(** The [sample_data] of the module's [main]. *)
Definition sample_series : list Item :=
  [ mk_item "2024-01-01" "steps" 8500;
    mk_item "2024-01-01" "heart_rate" 72;
    mk_item "2024-01-01" "sleep" (75 # 10);
    mk_item "2024-01-02" "steps" 6500;
    mk_item "2024-01-02" "heart_rate" 105;
    mk_item "2024-01-02" "sleep" (45 # 10) ].

Definition sample_data : HealthData :=
  {| summary := Some (<["total_users" := 1]> (<["steps_avg_7d" := 7500]>
                 (<["heart_rate_avg_7d" := 75]> (<["sleep_avg_7d" := 65 # 10]>
                 (<["water_avg_7d" := 1800]> ∅)))));
     timeseries := Some sample_series;
     agent_results := None |}.

(** The same two step counts, handed over latest day first. *)
Definition latest_first_series : list Item :=
  [ mk_item "2024-01-02" "steps" 6500;
    mk_item "2024-01-01" "steps" 8500 ].

(** A series whose first value is negative. *)
Definition negative_first_series : list Item :=
  [ mk_item "2024-01-01" "steps" (-10);
    mk_item "2024-01-02" "steps" 5 ].

(** The trend the detector stores for a metric, if it returns one. *)
Definition reported_trend (data : HealthData) (metric_name : string) : option TrendResult :=
  match TrendAnalysisAgent._analyze data with
  | Py.Ok analysis => TrendAnalysisAgent.trends analysis !! metric_name
  | Py.Raise _ => None
  end.

(** The specification's reading of the trend: first and last are taken by
    day, and the change is the exact quotient, 0 only when the first value
    is 0. *)
Definition day_of (item : Item) : string := default "" (item_day item).

Definition chronologically_first (obs : list Item) : option Item :=
  foldl (fun best item =>
           match best with
           | None => Some item
           | Some b => if String.ltb (day_of item) (day_of b) then Some item else Some b
           end) None obs.

Definition chronologically_last (obs : list Item) : option Item :=
  foldl (fun best item =>
           match best with
           | None => Some item
           | Some b => if String.ltb (day_of b) (day_of item) then Some item else Some b
           end) None obs.

Definition specified_direction (series : list Item) (metric_name : string) : option string :=
  let obs := observations series metric_name in
  match chronologically_first obs, chronologically_last obs with
  | Some f, Some l =>
      if bool_decide (2 <= length obs)%nat then
        Some (if Py.gt (observed_value l) (observed_value f)
              then "increasing" else "decreasing")
      else None
  | _, _ => None
  end.

Definition specified_change_percent (v_first v_last : Q) : Q :=
  if Qeq_bool v_first 0 then 0 else ((v_last - v_first) / v_first) * 100.

Lemma round_zero d : Py.round 0 d == 0.
Proof.
  unfold Py.round. rewrite (Py.round_half_even_comp _ 0) by ring.
  change (Py.round_half_even 0) with 0%Z. unfold Qdiv. ring.
Qed.



(** The scenario of the specification: steps 8500 then 6500 are reported as
    decreasing, with the recommendation for decreasing steps. *)
Example trend_sample :
  (fun t => (trend t, recommendation t)) <$> reported_trend sample_data "steps"
  = Some ("decreasing", "Consider increasing daily physical activity").
Proof. vm_compute. reflexivity. Qed.


(** ** The anomaly detector judges each record on its own *)

(** The threshold table of the specification: [a] is the anomaly that the
    record [item] triggers. *)
Definition anomaly_rule (item : Item) (a : Anomaly) : Prop :=
  date a = item_day item /\ metric a = item_metric item /\
  value a = observed_value item /\
  ((item_metric item = Some "heart_rate" /\ 100 < observed_value item /\
    severity a = "high" /\ message a = "Elevated resting heart rate detected") \/
   (item_metric item = Some "sleep" /\ observed_value item < 5 /\
    severity a = "medium" /\ message a = "Insufficient sleep duration") \/
   (item_metric item = Some "steps" /\ observed_value item < 3000 /\
    severity a = "low" /\ message a = "Low daily activity level")).

(** The anomalies of a series, as the detector reports them. *)
Definition detect (data : HealthData) : list Anomaly :=
  AnomalyDetectionAgent.anomalies (AnomalyDetectionAgent._analyze data).

(** The detector run on a single record. *)
Definition detect_one (item : Item) : list Anomaly :=
  AnomalyDetectionAgent.scan_item [] item.

Lemma detect_singleton item : detect (series_data [item]) = detect_one item.
Proof. reflexivity. Qed.

Lemma scan_item_app acc item :
  AnomalyDetectionAgent.scan_item acc item = acc ++ detect_one item.
Proof.
  unfold detect_one, AnomalyDetectionAgent.scan_item.
  repeat (destruct (_ && _); [reflexivity |]).
  by rewrite app_nil_r.
Qed.

Lemma foldl_scan_item acc series :
  foldl AnomalyDetectionAgent.scan_item acc series = acc ++ flat_map detect_one series.
Proof.
  revert acc. induction series as [| item series IH]; intros acc; simpl.
  - by rewrite app_nil_r.
  - rewrite IH, scan_item_app. by rewrite <- app_assoc.
Qed.

Lemma detect_flat_map data :
  detect data = flat_map detect_one (default [] (timeseries data)).
Proof. unfold detect. simpl. apply foldl_scan_item. Qed.

Lemma detect_one_length item : (length (detect_one item) <= 1)%nat.
Proof.
  unfold detect_one, AnomalyDetectionAgent.scan_item.
  repeat (destruct (_ && _); [simpl; lia |]). simpl; lia.
Qed.

Lemma detect_one_rule item a : a ∈ detect_one item <-> anomaly_rule item a.
Proof.
  unfold detect_one, AnomalyDetectionAgent.scan_item, anomaly_rule, observed_value.
  destruct item as [d m v]; simpl.
  repeat case_bool_decide; simpl; Py.cmp_cases;
    rewrite ?list_elem_of_singleton, ?elem_of_nil;
    (split; [intros Ha; subst; simpl; try tauto | intros (Hd & Hm & Hv & Hr)]);
    try (destruct a; simpl in *; subst;
         destruct Hr as [(? & ? & ? & ?) | [(? & ? & ? & ?) | (? & ? & ? & ?)]];
         simplify_eq; try reflexivity; try lra).
Qed.

(** C4. The anomaly detector applies exactly the thresholds heart_rate > 100
    (high), sleep < 5 (medium), steps < 3000 (low); its output is the
    concatenation, in input order, of what each record triggers on its own,
    which is at most one anomaly, and none when no rule matches. *)
Theorem anomaly_detector_thresholds (data : HealthData) :
  detect data = flat_map detect_one (default [] (timeseries data)) /\
  forall item : Item,
    (length (detect_one item) <= 1)%nat /\
    (forall a : Anomaly, a ∈ detect_one item <-> anomaly_rule item a) /\
    ((forall a : Anomaly, ~ anomaly_rule item a) -> detect_one item = []).
Proof.
  split; [apply detect_flat_map |].
  intros item. split; [apply detect_one_length |].
  split; [apply detect_one_rule |].
  intros Hno. destruct (detect_one item) as [| a l] eqn:E; [reflexivity |].
  exfalso. apply (Hno a). apply detect_one_rule. rewrite E. apply list_elem_of_here.
Qed.

(** C5. Permuting the records of the input permutes the reported anomalies:
    the two runs report the same anomalies, as a multiset and hence as a set. *)
Theorem anomaly_detector_order_independent (data data' : HealthData) :
  default [] (timeseries data) ≡ₚ default [] (timeseries data') ->
  detect data ≡ₚ detect data' /\
  forall a : Anomaly, a ∈ detect data <-> a ∈ detect data'.
Proof.
  intros Hperm.
  assert (Hp : detect data ≡ₚ detect data').
  { rewrite !detect_flat_map. by apply Permutation_flat_map. }
  split; [exact Hp |].
  intros a. by rewrite Hp.
Qed.

Lemma anomaly_detector_order_independent_witness :
  default [] (timeseries sample_data)
    ≡ₚ default [] (timeseries (series_data (reverse sample_series))) /\
  detect sample_data ≡ₚ detect (series_data (reverse sample_series)).
Proof.
  assert (Hperm : default [] (timeseries sample_data)
                    ≡ₚ default [] (timeseries (series_data (reverse sample_series)))).
  { simpl. symmetry. apply reverse_Permutation. }
  split; [exact Hperm |].
  apply (anomaly_detector_order_independent sample_data
           (series_data (reverse sample_series)) Hperm).
Defined.

(** The scenario of the specification: the 105 bpm record is flagged high and
    the 4.5 h sleep record medium, and nothing else is flagged. *)
Example detect_sample :
  map (fun a => (metric a, severity a)) (detect sample_data) =
  [ (Some "heart_rate", "high"); (Some "sleep", "medium") ].
Proof. vm_compute. reflexivity. Qed.

(** ** The wellness scorer meets its breakpoints *)

(** The breakpoint tables of the specification, as relations between a raw
    7-day average and the points it earns. *)
Definition steps_rule (steps p : Q) : Prop :=
  (10000 <= steps /\ p == 25) \/
  (8000 <= steps /\ steps < 10000 /\ p == 20) \/
  (5000 <= steps /\ steps < 8000 /\ p == 15) \/
  (steps < 5000 /\ p == Qmax 0 (steps / 500)).

Definition sleep_rule (sleep p : Q) : Prop :=
  (7 <= sleep /\ sleep <= 9 /\ p == 25) \/
  (((6 <= sleep /\ sleep < 7) \/ (9 < sleep /\ sleep <= 10)) /\ p == 20) \/
  ((sleep < 6 \/ 10 < sleep) /\ p == Qmax 0 (25 - Qabs (sleep - 8) * 5)).

Definition heart_rate_rule (hr p : Q) : Prop :=
  (60 <= hr /\ hr <= 80 /\ p == 25) \/
  (((50 <= hr /\ hr < 60) \/ (80 < hr /\ hr <= 90)) /\ p == 20) \/
  ((hr < 50 \/ 90 < hr) /\ p == Qmax 0 (25 - Qabs (hr - 70) * 2)).

Definition water_rule (water p : Q) : Prop :=
  (2000 <= water /\ p == 25) \/
  (1500 <= water /\ water < 2000 /\ p == 20) \/
  (water < 1500 /\ p == Qmax 0 (water / 100)).

Definition in_range (lo hi p : Q) : Prop := lo <= p /\ p <= hi.

(** The summary of the specification's example. *)
Definition ideal_summary : gmap string Q :=
  <["steps_avg_7d" := 10000]> (<["sleep_avg_7d" := 8]>
    (<["heart_rate_avg_7d" := 70]> (<["water_avg_7d" := 2000]> ∅))).

Lemma Qmax0_range (e hi : Q) : 0 <= hi -> e <= hi -> in_range 0 hi (Qmax 0 e).
Proof.
  intros Hhi He. unfold in_range.
  destruct (Q.max_spec 0 e) as [[? ->] | [? ->]]; lra.
Qed.

Lemma steps_points_rule steps : steps_rule steps (steps_points steps).
Proof.
  unfold steps_rule, steps_points. Py.cmp_cases.
  - left. lra.
  - right; left. lra.
  - right; right; left. lra.
  - right; right; right. split; [lra | reflexivity].
Qed.

Lemma sleep_points_rule sleep : sleep_rule sleep (sleep_points sleep).
Proof.
  unfold sleep_rule, sleep_points. Py.cmp_cases;
    first [ left; lra
          | right; left; split; [lra | reflexivity]
          | right; right; split; [lra | reflexivity] ].
Qed.

Lemma heart_rate_points_rule hr : heart_rate_rule hr (heart_rate_points hr).
Proof.
  unfold heart_rate_rule, heart_rate_points. Py.cmp_cases;
    first [ left; lra
          | right; left; split; [lra | reflexivity]
          | right; right; split; [lra | reflexivity] ].
Qed.

Lemma water_points_rule water : water_rule water (water_points water).
Proof.
  unfold water_rule, water_points. Py.cmp_cases.
  - left. lra.
  - right; left. lra.
  - right; right. split; [lra | reflexivity].
Qed.

Lemma steps_points_range steps : in_range 0 25 (steps_points steps).
Proof.
  unfold steps_points. Py.cmp_cases; try (unfold in_range; lra).
  apply Qmax0_range; [lra |].
  apply Qle_shift_div_r; lra.
Qed.

Lemma sleep_points_range sleep : in_range 0 25 (sleep_points sleep).
Proof.
  unfold sleep_points.
  destruct (_ && _); [unfold in_range; lra |].
  destruct (_ || _); [unfold in_range; lra |].
  apply Qmax0_range; [lra |].
  pose proof (Qabs_nonneg (sleep - 8)). nra.
Qed.

Lemma heart_rate_points_range hr : in_range 0 25 (heart_rate_points hr).
Proof.
  unfold heart_rate_points.
  destruct (_ && _); [unfold in_range; lra |].
  destruct (_ || _); [unfold in_range; lra |].
  apply Qmax0_range; [lra |].
  pose proof (Qabs_nonneg (hr - 70)). nra.
Qed.

Lemma water_points_range water : in_range 0 25 (water_points water).
Proof.
  unfold water_points. Py.cmp_cases; try (unfold in_range; lra).
  apply Qmax0_range; [lra |].
  apply Qle_shift_div_r; lra.
Qed.

(** The score is the sum of the four sub-scores, rounded to one decimal. *)
Lemma wellness_score_sum summary :
  _calculate_wellness_score summary ==
  Py.round (steps_points (Py.get summary "steps_avg_7d" 0)
            + sleep_points (Py.get summary "sleep_avg_7d" 0)
            + heart_rate_points (Py.get summary "heart_rate_avg_7d" 0)
            + water_points (Py.get summary "water_avg_7d" 0)) 1.
Proof.
  unfold _calculate_wellness_score.
  change (Py.gt (0 + 25 + 25 + 25 + 25) 0) with true. cbv iota.
  apply Py.round_comp. field.
Qed.


(** ** When the trend detector fails *)

(** A tracked metric is incomplete when it has at least 2 observations and
    one of them carries no value. *)
Definition incomplete (series : list Item) (metric_name : string) : Prop :=
  (2 <= length (observations series metric_name))%nat /\
  exists item, item ∈ observations series metric_name /\ item_value item = None.

Lemma comprehension_values_cases (items : list Item) :
  (Forall has_value items /\
   Py.comprehension getitem_value items = Py.Ok (omap item_value items)) \/
  ((exists item, item ∈ items /\ item_value item = None) /\
   Py.comprehension getitem_value items = Py.Raise (Py.KeyError "value")).
Proof.
  induction items as [| item items IH].
  - left. split; [constructor | reflexivity].
  - cbn [Py.comprehension]. unfold getitem_value at 1 3.
    destruct (item_value item) as [v |] eqn:Hv.
    + destruct IH as [[Hall ->] | [(bad & Hin & Hbad) ->]].
      * left. split; [constructor; [by eexists | exact Hall] |].
        cbn [omap list_omap]. by rewrite Hv.
      * right. split; [| reflexivity]. exists bad. split; [by apply list_elem_of_further | done].
    + right. split; [| reflexivity]. exists item. split; [apply list_elem_of_here | done].
Qed.

Lemma analyze_metric_cases series trends metric_name :
  (incomplete series metric_name /\
   TrendAnalysisAgent.analyze_metric series trends metric_name
   = Py.Raise (Py.KeyError "value")) \/
  (~ incomplete series metric_name /\
   exists trends', TrendAnalysisAgent.analyze_metric series trends metric_name
                   = Py.Ok trends').
Proof.
  unfold TrendAnalysisAgent.analyze_metric, incomplete.
  fold (observations series metric_name).
  case_bool_decide as H2.
  - destruct (comprehension_values_cases (observations series metric_name))
      as [[Hall Hc] | [Hbad Hc]]; rewrite Hc; simpl.
    + right. split.
      * intros (_ & item & Hin & Hnone).
        rewrite Forall_forall in Hall. destruct (Hall item Hin) as [v Hv]. congruence.
      * destruct (comprehension_values _ Hall) as [_ Hlen].
        destruct (omap item_value (observations series metric_name)) as [| v l] eqn:E;
          [simpl in Hlen; lia |].
        unfold Py.final, Py.first.
        destruct (last (v :: l)) as [vl |] eqn:El;
          [| apply last_None in El; discriminate].
        simpl. by eexists.
    + left. by split.
  - right. split; [by intros [? _] | by eexists].
Qed.


(** A lone record without a value does no harm; a second observation of its
    metric makes the detector raise. *)
Example trend_detector_lone_record :
  Py.option_of (TrendAnalysisAgent._analyze
     (series_data [ {| item_day := None; item_metric := Some "steps";
                       item_value := None |} ]))
  = Some {| TrendAnalysisAgent.trends := ∅; TrendAnalysisAgent.confidence := 85 # 100 |}.
Proof. reflexivity. Qed.

End MultiAgentSystem.

(* ===================================================================== *)
(** * AI/gemini_agent.py                                                   *)
(* ===================================================================== *)
Module GeminiAgent.
Import MultiAgentSystem.

(** The dict returned by [generate_health_insights]; both shapes share
    ["status"] and ["insights"], the other keys belong to one shape each. *)
Record InsightsResult : Type := {
  status : string;
  insights : Py.json;
  confidence : option Q;
  source : option string;
  error : option string
}.

Section GeminiHealthAgent.

(** The hosted completion service: [self.model.generate_content(prompt)]
    followed by [response.text]; either step may raise. *)
Variable generate_content : string -> Py.result string.

(** [json.loads] *)
Variable json_loads : string -> Py.result Py.json.

(** Text renderings used inside the prompt: a number in an f-string, and
    [json.dumps(_, indent=2)] of the trends and of the anomalies. *)
Variable format_number : Q -> string.
Variable json_dumps_trends : gmap string TrendResult -> string.
Variable json_dumps_anomalies : list Anomaly -> string.

Definition newline : string := String (ascii_of_nat 10) EmptyString.

(** The prompt text; the double quotes of the schema example are written
    as single quotes here. *)
Definition _create_health_prompt (data : HealthData) : string :=
  let summary := default ∅ (summary data) in
  let agent_results :=
    default {| ar_trends := None; ar_anomalies := None |} (agent_results data) in
  let trends := default ∅ (ar_trends agent_results) in
  let anomalies := default [] (ar_anomalies agent_results) in
  newline
  +:+ "You are a health analysis AI. Analyze this health data and provide personalized insights:" +:+ newline
  +:+ newline
  +:+ "HEALTH METRICS:" +:+ newline
  +:+ "- Average Steps: " +:+ format_number (Py.get summary "steps_avg_7d" 0) +:+ "/day" +:+ newline
  +:+ "- Average Heart Rate: " +:+ format_number (Py.get summary "heart_rate_avg_7d" 0) +:+ " bpm" +:+ newline
  +:+ "- Average Sleep: " +:+ format_number (Py.get summary "sleep_avg_7d" 0) +:+ " hours" +:+ newline
  +:+ "- Average Water: " +:+ format_number (Py.get summary "water_avg_7d" 0) +:+ " ml" +:+ newline
  +:+ newline
  +:+ "TRENDS DETECTED:" +:+ newline
  +:+ json_dumps_trends trends +:+ newline
  +:+ newline
  +:+ "ANOMALIES FOUND:" +:+ newline
  +:+ json_dumps_anomalies anomalies +:+ newline
  +:+ newline
  +:+ "Please provide:" +:+ newline
  +:+ "1. Overall wellness assessment (score 0-100)" +:+ newline
  +:+ "2. Top 3 personalized recommendations" +:+ newline
  +:+ "3. Health risks to monitor" +:+ newline
  +:+ "4. Positive patterns to maintain" +:+ newline
  +:+ newline
  +:+ "Format as JSON:" +:+ newline
  +:+ "{" +:+ newline
  +:+ "  'wellness_score': number," +:+ newline
  +:+ "  'recommendations': ['rec1', 'rec2', 'rec3']," +:+ newline
  +:+ "  'risks': ['risk1', 'risk2']," +:+ newline
  +:+ "  'positive_patterns': ['pattern1', 'pattern2']," +:+ newline
  +:+ "  'summary': 'brief overall assessment'" +:+ newline
  +:+ "}" +:+ newline.

(** The lists that [_extract_insights_from_text] fills line by line. *)
Record Extracted : Type := {
  ex_recommendations : list string;
  ex_risks : list string;
  ex_positive_patterns : list string
}.

Definition extract_line (acc : Extracted) (line : string) : Extracted :=
  let line := Py.strip line in
  if Py.contains "recommend" (Py.lower line) then
    {| ex_recommendations := ex_recommendations acc ++ [line];
       ex_risks := ex_risks acc;
       ex_positive_patterns := ex_positive_patterns acc |}
  else if Py.contains "risk" (Py.lower line) then
    {| ex_recommendations := ex_recommendations acc;
       ex_risks := ex_risks acc ++ [line];
       ex_positive_patterns := ex_positive_patterns acc |}
  else if Py.contains "positive" (Py.lower line) || Py.contains "good" (Py.lower line) then
    {| ex_recommendations := ex_recommendations acc;
       ex_risks := ex_risks acc;
       ex_positive_patterns := ex_positive_patterns acc ++ [line] |}
  else acc.

Definition _extract_insights_from_text (text : string) : Py.json :=
  let lines := Py.split (ascii_of_nat 10) text in
  let found :=
    foldl extract_line
      {| ex_recommendations := []; ex_risks := []; ex_positive_patterns := [] |} lines in
  Py.JDict [ ("wellness_score", Py.JNum 75);
             ("recommendations", Py.strs (ex_recommendations found));
             ("risks", Py.strs (ex_risks found));
             ("positive_patterns", Py.strs (ex_positive_patterns found));
             ("summary", Py.JStr "Analysis completed") ].

Definition _parse_gemini_response (response_text : string) : Py.result Py.json :=
  Py.try_except_json
    (let start := Py.find response_text "{"%char in
     let end_ := (Py.rfind response_text "}"%char + 1)%Z in
     if negb (start =? -1)%Z && negb (end_ =? -1)%Z then
       let json_str := Py.slice response_text start end_ in
       json_loads json_str
     else
       Py.Ok (_extract_insights_from_text response_text))
    (Py.Ok (_extract_insights_from_text response_text)).

Definition _fallback_insights (data : HealthData) : Py.json :=
  let summary := default ∅ (summary data) in
  let steps := Py.get summary "steps_avg_7d" 0 in
  let sleep := Py.get summary "sleep_avg_7d" 0 in
  let hr := Py.get summary "heart_rate_avg_7d" 0 in
  let recommendations := [] in
  let recommendations :=
    if Py.lt steps 8000 then recommendations ++ ["Increase daily steps to 8,000+"]
    else recommendations in
  let recommendations :=
    if Py.lt sleep 7 then recommendations ++ ["Aim for 7-9 hours of sleep"]
    else recommendations in
  let recommendations :=
    if Py.gt hr 85 then recommendations ++ ["Monitor heart rate patterns"]
    else recommendations in
  Py.JDict [ ("wellness_score",
              Py.JNum (Qmin 100 (Qmax 0 ((steps / 100) + (sleep * 10) + (100 - hr)))));
             ("recommendations", Py.strs (Py.slice_to 3 recommendations));
             ("risks", Py.strs ["Insufficient data for risk assessment"]);
             ("positive_patterns", Py.strs ["Regular health monitoring"]);
             ("summary", Py.JStr "Basic health assessment completed") ].

Definition generate_health_insights (health_data : HealthData) : Py.result InsightsResult :=
  let prompt := _create_health_prompt health_data in
  Py.try_except
    (let* response_text := generate_content prompt in
     let* insights := _parse_gemini_response response_text in
     Py.Ok {| status := "success";
              insights := insights;
              confidence := Some (9 # 10);
              source := Some "gemini-pro";
              error := None |})
    (fun e =>
       Py.Ok {| status := "error";
                insights := _fallback_insights health_data;
                confidence := None;
                source := None;
                error := Some (Py.str_exn e) |}).

(** *** The agent never raises *)

(** What is known of [json.loads]: it returns [None] only on the text
    [null], surrounding white space apart. *)
Hypothesis json_loads_None :
  forall text, json_loads text = Py.Ok Py.JNull -> Py.strip text = "null".

Lemma extract_not_null text : _extract_insights_from_text text <> Py.JNull.
Proof. discriminate. Qed.

Lemma fallback_not_null data : _fallback_insights data <> Py.JNull.
Proof. discriminate. Qed.

Lemma parse_not_null text j :
  _parse_gemini_response text = Py.Ok j -> j <> Py.JNull.
Proof.
  unfold _parse_gemini_response.
  destruct (Z.eqb_spec (Py.find text "{"%char) (-1)) as [Hno | Hfound]; simpl.
  { intros [= <-]. apply extract_not_null. }
  destruct (negb _); simpl; [| intros [= <-]; apply extract_not_null].
  destruct (json_loads _) as [v | e] eqn:Hloads; simpl.
  - intros [= <-] ->. apply json_loads_None in Hloads.
    destruct (Py.slice_from_find text "{"%char
                (Py.rfind text "}"%char + 1) Hfound) as [Hs | [rest Hs]];
      rewrite Hs in Hloads.
    + discriminate.
    + rewrite Py.strip_keeps_head in Hloads by reflexivity. discriminate.
  - destruct (Py.is_JSONDecodeError e); [| discriminate].
    intros [= <-]. apply extract_not_null.
Qed.


(** *** The rule-based fallback *)

(** [clamp(x, lo, hi)] of the specification. *)
Definition clamp (x lo hi : Q) : Q :=
  if Py.lt x lo then lo else if Py.gt x hi then hi else x.

(** The recommendations that the threshold checks generate. *)
Definition threshold_recommendations (steps sleep hr : Q) : list string :=
  (if Py.lt steps 8000 then ["Increase daily steps to 8,000+"] else [])
  ++ (if Py.lt sleep 7 then ["Aim for 7-9 hours of sleep"] else [])
  ++ (if Py.gt hr 85 then ["Monitor heart rate patterns"] else []).

Lemma threshold_recommendations_length steps sleep hr :
  (length (threshold_recommendations steps sleep hr) <= 3)%nat.
Proof.
  unfold threshold_recommendations.
  destruct (Py.lt steps 8000), (Py.lt sleep 7), (Py.gt hr 85); simpl; lia.
Qed.

Lemma Qmin_Qmax_clamp x : Qmin 100 (Qmax 0 x) == clamp x 0 100.
Proof.
  unfold clamp.
  destruct (Py.lt_reflect x 0), (Py.gt_reflect x 100); try lra.
  - rewrite Q.max_l by lra. rewrite Q.min_r by lra. reflexivity.
  - rewrite Q.max_r by lra. rewrite Q.min_l by lra. reflexivity.
  - rewrite Q.max_r by lra. rewrite Q.min_r by lra. reflexivity.
Qed.

Lemma fallback_insights_fields data :
  exists score,
    Py.lookup "wellness_score" (_fallback_insights data) = Some (Py.JNum score) /\
    score == clamp (Py.get (default ∅ (summary data)) "steps_avg_7d" 0 / 100
                    + Py.get (default ∅ (summary data)) "sleep_avg_7d" 0 * 10
                    + (100 - Py.get (default ∅ (summary data)) "heart_rate_avg_7d" 0))
               0 100 /\
    Py.lookup "recommendations" (_fallback_insights data) =
      Some (Py.strs (threshold_recommendations
                       (Py.get (default ∅ (summary data)) "steps_avg_7d" 0)
                       (Py.get (default ∅ (summary data)) "sleep_avg_7d" 0)
                       (Py.get (default ∅ (summary data)) "heart_rate_avg_7d" 0))).
Proof.
  eexists. split; [reflexivity |]. split; [apply Qmin_Qmax_clamp |].
  unfold _fallback_insights, threshold_recommendations. simpl. do 2 f_equal.
  destruct (Py.lt _ 8000), (Py.lt _ 7), (Py.gt _ 85); reflexivity.
Qed.

(** C6. When the completion call raises, the agent answers with status
    "error" and the fallback insights: their wellness_score is
    clamp(steps/100 + sleep*10 + (100 - heart_rate), 0, 100) on the summary's
    7-day averages, and their recommendations are exactly those of the
    checks steps < 8000, sleep < 7, heart_rate > 85, at most 3 of them. *)
Theorem fallback_on_completion_failure (health_data : HealthData) (e : Py.exn) :
  generate_content (_create_health_prompt health_data) = Py.Raise e ->
  exists (r : InsightsResult) (score : Q),
    generate_health_insights health_data = Py.Ok r /\
    status r = "error" /\
    error r = Some (Py.str_exn e) /\
    insights r = _fallback_insights health_data /\
    Py.lookup "wellness_score" (insights r) = Some (Py.JNum score) /\
    score == clamp (Py.get (default ∅ (summary health_data)) "steps_avg_7d" 0 / 100
                    + Py.get (default ∅ (summary health_data)) "sleep_avg_7d" 0 * 10
                    + (100 - Py.get (default ∅ (summary health_data)) "heart_rate_avg_7d" 0))
               0 100 /\
    Py.lookup "recommendations" (insights r) =
      Some (Py.strs (threshold_recommendations
                       (Py.get (default ∅ (summary health_data)) "steps_avg_7d" 0)
                       (Py.get (default ∅ (summary health_data)) "sleep_avg_7d" 0)
                       (Py.get (default ∅ (summary health_data)) "heart_rate_avg_7d" 0))) /\
    (length (threshold_recommendations
               (Py.get (default ∅ (summary health_data)) "steps_avg_7d" 0)
               (Py.get (default ∅ (summary health_data)) "sleep_avg_7d" 0)
               (Py.get (default ∅ (summary health_data)) "heart_rate_avg_7d" 0)) <= 3)%nat.
Proof.
  intros Hraise.
  destruct (fallback_insights_fields health_data) as (score & Hscore & Hclamp & Hrecs).
  unfold generate_health_insights. rewrite Hraise. simpl.
  eexists; exists score. split; [reflexivity |]. simpl.
  repeat split; try assumption. apply threshold_recommendations_length.
Qed.

End GeminiHealthAgent.

(** ** Concrete collaborators, for running the agent *)

(** A completion service whose every call fails. *)
Definition timing_out (prompt : string) : Py.result string :=
  Py.Raise (Py.Exception "deadline exceeded").

(** A completion service that always answers with the given text. *)
Definition answering (text prompt : string) : Py.result string := Py.Ok text.

(** A decoder that accepts the empty object only. *)
Definition loads_empty_object (text : string) : Py.result Py.json :=
  if String.eqb text "{}" then Py.Ok (Py.JDict [])
  else Py.Raise (Py.JSONDecodeError "Expecting value").

Definition show_number (q : Q) : string :=
  pretty (Qnum q) +:+ "/" +:+ pretty (Zpos (Qden q)).

Definition show_no_trends (trends : gmap string TrendResult) : string := "{}".
Definition show_no_anomalies (anomalies : list Anomaly) : string := "[]".

Lemma loads_empty_object_None text :
  loads_empty_object text = Py.Ok Py.JNull -> Py.strip text = "null".
Proof. unfold loads_empty_object. destruct (String.eqb text "{}"); discriminate. Qed.


Lemma fallback_on_completion_failure_witness :
  timing_out (_create_health_prompt show_number show_no_trends show_no_anomalies sample_data)
    = Py.Raise (Py.Exception "deadline exceeded") /\
  exists (r : InsightsResult) (score : Q),
    generate_health_insights timing_out loads_empty_object show_number
      show_no_trends show_no_anomalies sample_data = Py.Ok r /\
    status r = "error" /\
    Py.lookup "wellness_score" (insights r) = Some (Py.JNum score) /\
    score == 100.
Proof.
  split; [reflexivity |].
  destruct (fallback_on_completion_failure timing_out loads_empty_object show_number
              show_no_trends show_no_anomalies sample_data
              (Py.Exception "deadline exceeded") eq_refl)
    as (r & score & Hrun & Hstatus & _ & _ & Hscore & Hclamp & _).
  exists r, score. split; [exact Hrun |]. split; [exact Hstatus |].
  split; [exact Hscore |]. rewrite Hclamp. vm_compute. reflexivity.
Defined.

(** The sample summary (7500 steps, 6.5 h sleep, 75 bpm) falls back to a
    score of 100 and to the two recommendations on steps and sleep. *)
Example fallback_sample :
  Py.lookup "recommendations" (_fallback_insights sample_data) =
  Some (Py.strs ["Increase daily steps to 8,000+"; "Aim for 7-9 hours of sleep"]).
Proof. vm_compute. reflexivity. Qed.

(** A reply that carries an object is decoded; one without braces is
    scanned line by line. *)
Example parse_object_reply :
  _parse_gemini_response loads_empty_object "Here you go: {} enjoy" = Py.Ok (Py.JDict []).
Proof. vm_compute. reflexivity. Qed.

Example insights_from_object_reply :
  status <$> Py.option_of (generate_health_insights (answering "Here you go: {} enjoy")
                          loads_empty_object show_number show_no_trends
                          show_no_anomalies sample_data)
  = Some "success".
Proof. vm_compute. reflexivity. Qed.

Example parse_plain_reply :
  Py.lookup "risks"
    (_extract_insights_from_text
       ("  I Recommend more walking " +:+ newline +:+ "Risk of fatigue")) =
  Some (Py.strs ["Risk of fatigue"]).
Proof. vm_compute. reflexivity. Qed.

(** ** Further laws of the insight agent *)

Section InsightLaws.

Variable generate_content : string -> Py.result string.
Variable json_loads : string -> Py.result Py.json.
Variable format_number : Q -> string.
Variable json_dumps_trends : gmap string TrendResult -> string.
Variable json_dumps_anomalies : list Anomaly -> string.

Lemma index_of_None (c : ascii) (s : string) :
  Py.index_of c s = None <-> ~ In c (String.list_ascii_of_string s).
Proof.
  induction s as [| a s IH]; simpl; [tauto |].
  destruct (Ascii.eqb_spec a c) as [-> | Hne].
  - split; [discriminate | intros H; exfalso; apply H; by left].
  - destruct (Py.index_of c s) as [n |] eqn:E; simpl.
    + split; [discriminate |]. intros H. exfalso.
      assert (Hs : ~ In c (String.list_ascii_of_string s)) by tauto.
      apply IH in Hs. discriminate.
    + split; [| done]. intros _ [Heq | Hin]; [done |]. by apply IH.
Qed.

Lemma find_absent (s : string) (c : ascii) :
  Py.find s c = (-1)%Z <-> ~ In c (String.list_ascii_of_string s).
Proof.
  rewrite <- index_of_None. unfold Py.find.
  destruct (Py.index_of c s); split; intros H; try done; lia.
Qed.

Lemma rindex_of_lt (c : ascii) (s : string) (n : nat) :
  Py.rindex_of c s = Some n -> (n < String.length s)%nat.
Proof.
  revert n. induction s as [| a s IH]; intros n H; simpl in H; [discriminate |].
  destruct (Py.rindex_of c s) as [k |].
  - injection H as <-. simpl. specialize (IH k eq_refl). lia.
  - destruct (Ascii.eqb a c); [| discriminate]. injection H as <-. simpl. lia.
Qed.

(** A slice whose stop does not exceed its start is empty. *)
Lemma slice_backwards (s : string) (start stop : Z) :
  (0 <= stop <= start)%Z -> Py.slice s start stop = EmptyString.
Proof.
  intros H. unfold Py.slice.
  destruct (Z.ltb_spec start 0), (Z.ltb_spec stop 0); try lia.
  match goal with
  | |- String.substring _ ?m _ = _ => replace m with 0%nat by lia
  end.
  apply Py.substring_zero_length.
Qed.

(** How a reply is parsed.  A reply without an opening brace is scanned
    line by line and the decoder is not consulted.  A reply with one is cut
    from its first opening brace to its last closing brace and decoded: the
    decoded value is returned as it is, a [JSONDecodeError] falls back to the
    line scan, and any other exception of the decoder is raised.  When no
    closing brace follows the first opening brace the decoder is handed the
    empty string. *)
Theorem parse_gemini_response_paths (text : string) :
  (~ In "{"%char (String.list_ascii_of_string text) ->
   forall loads : string -> Py.result Py.json,
     _parse_gemini_response loads text = Py.Ok (_extract_insights_from_text text)) /\
  (In "{"%char (String.list_ascii_of_string text) ->
   (forall v,
      json_loads (Py.slice text (Py.find text "{"%char) (Py.rfind text "}"%char + 1))
        = Py.Ok v ->
      _parse_gemini_response json_loads text = Py.Ok v) /\
   (forall msg,
      json_loads (Py.slice text (Py.find text "{"%char) (Py.rfind text "}"%char + 1))
        = Py.Raise (Py.JSONDecodeError msg) ->
      _parse_gemini_response json_loads text
        = Py.Ok (_extract_insights_from_text text)) /\
   (forall e,
      json_loads (Py.slice text (Py.find text "{"%char) (Py.rfind text "}"%char + 1))
        = Py.Raise e ->
      Py.is_JSONDecodeError e = false ->
      _parse_gemini_response json_loads text = Py.Raise e) /\
   ((Py.rfind text "}"%char < Py.find text "{"%char)%Z ->
    Py.slice text (Py.find text "{"%char) (Py.rfind text "}"%char + 1) = EmptyString)).
Proof.
  split.
  - intros Habsent loads. apply find_absent in Habsent.
    unfold _parse_gemini_response. by rewrite Habsent.
  - intros Hpresent.
    assert (Hfound : Py.find text "{"%char <> (-1)%Z).
    { intros Hno. by apply find_absent in Hno. }
    assert (Hend : (0 <= Py.rfind text "}"%char + 1)%Z).
    { unfold Py.rfind. destruct (Py.rindex_of _ _); lia. }
    unfold _parse_gemini_response.
    destruct (Z.eqb_spec (Py.find text "{"%char) (-1)) as [? | _]; [done |].
    destruct (Z.eqb_spec (Py.rfind text "}"%char + 1) (-1)) as [? | _]; [lia |].
    simpl. repeat split.
    + by intros v ->.
    + by intros msg ->.
    + intros e -> He. simpl. by rewrite He.
    + intros Hlt. apply slice_backwards. lia.
Qed.

(** A line of the reply mentions a keyword, whatever its case. *)
Definition mentions (keyword line : string) : bool :=
  Py.contains keyword (Py.lower line).

(** The line scan sorts the stripped lines of the text into three lists,
    each in the order of the text: a line that mentions "recommend" is a
    recommendation; otherwise one that mentions "risk" is a risk; otherwise
    one that mentions "positive" or "good" is a positive pattern.  No line
    lands in two lists, and the score is always 75. *)
Theorem extract_insights_classifies_lines (text : string) :
  _extract_insights_from_text text =
  Py.JDict
    [ ("wellness_score", Py.JNum 75);
      ("recommendations",
       Py.strs (filter (fun line => mentions "recommend" line = true)
                  (Py.strip <$> Py.split (ascii_of_nat 10) text)));
      ("risks",
       Py.strs (filter (fun line => mentions "recommend" line = false /\
                                    mentions "risk" line = true)
                  (Py.strip <$> Py.split (ascii_of_nat 10) text)));
      ("positive_patterns",
       Py.strs (filter (fun line => mentions "recommend" line = false /\
                                    mentions "risk" line = false /\
                                    (mentions "positive" line || mentions "good" line) = true)
                  (Py.strip <$> Py.split (ascii_of_nat 10) text)));
      ("summary", Py.JStr "Analysis completed") ].
Proof.
  unfold _extract_insights_from_text.
  assert (Hfold : forall lines acc,
    foldl extract_line acc lines =
    {| ex_recommendations :=
         ex_recommendations acc
         ++ filter (fun line => mentions "recommend" line = true) (Py.strip <$> lines);
       ex_risks :=
         ex_risks acc
         ++ filter (fun line => mentions "recommend" line = false /\
                                mentions "risk" line = true) (Py.strip <$> lines);
       ex_positive_patterns :=
         ex_positive_patterns acc
         ++ filter (fun line => mentions "recommend" line = false /\
                                mentions "risk" line = false /\
                                (mentions "positive" line || mentions "good" line) = true)
              (Py.strip <$> lines) |}).
  { induction lines as [| line lines IH]; intros acc.
    - simpl. rewrite !app_nil_r. by destruct acc.
    - cbn [foldl]. rewrite IH. rewrite fmap_cons, !filter_cons.
      unfold extract_line, mentions.
      destruct (Py.contains "recommend" (Py.lower (Py.strip line))) eqn:Hrec.
      { rewrite decide_True by done. rewrite decide_False by (intros [? ?]; done).
        rewrite decide_False by (intros [? ?]; done).
        simpl. by rewrite <- !app_assoc. }
      rewrite decide_False by done.
      destruct (Py.contains "risk" (Py.lower (Py.strip line))) eqn:Hrisk.
      { rewrite decide_True by done. rewrite decide_False by (intros (? & ? & ?); done).
        simpl. by rewrite <- !app_assoc. }
      rewrite decide_False by (intros [? ?]; done).
      destruct (Py.contains "positive" (Py.lower (Py.strip line))
                || Py.contains "good" (Py.lower (Py.strip line))) eqn:Hpos.
      { rewrite decide_True by done. simpl. by rewrite <- !app_assoc. }
      rewrite decide_False by (intros (? & ? & ?); done). reflexivity. }
  rewrite Hfold. reflexivity.
Qed.

(** The status tells where the insights come from: it is "success" exactly
    when the completion call returned a text and parsing it returned the
    insights (then with confidence 0.9 and source "gemini-pro"); otherwise it
    is "error", the error text is that of the exception raised by the call or
    by the parsing, and the insights are the fallback. *)
Theorem insights_status_tells_source (health_data : HealthData) (r : InsightsResult) :
  generate_health_insights generate_content json_loads format_number
    json_dumps_trends json_dumps_anomalies health_data = Py.Ok r ->
  (status r = "success" <->
   exists text,
     generate_content
       (_create_health_prompt format_number json_dumps_trends json_dumps_anomalies
          health_data) = Py.Ok text /\
     _parse_gemini_response json_loads text = Py.Ok (insights r)) /\
  (status r = "success" ->
   confidence r = Some (9 # 10) /\ source r = Some "gemini-pro" /\ error r = None) /\
  (status r <> "success" ->
   status r = "error" /\ insights r = _fallback_insights health_data /\
   confidence r = None /\ source r = None /\
   exists e, error r = Some (Py.str_exn e) /\
     (generate_content
        (_create_health_prompt format_number json_dumps_trends json_dumps_anomalies
           health_data) = Py.Raise e \/
      exists text,
        generate_content
          (_create_health_prompt format_number json_dumps_trends json_dumps_anomalies
             health_data) = Py.Ok text /\
        _parse_gemini_response json_loads text = Py.Raise e)).
Proof.
  unfold generate_health_insights.
  destruct (generate_content _) as [text | e] eqn:Hcall; simpl.
  - destruct (_parse_gemini_response json_loads text) as [j | e] eqn:Hparse; simpl.
    + intros [= <-]. simpl. split; [| split].
      * split; [intros _; by exists text | done].
      * done.
      * done.
    + intros [= <-]. simpl. split; [| split].
      * split; [discriminate |]. intros (text' & [= <-] & Hp). congruence.
      * discriminate.
      * intros _. repeat split. exists e. split; [done |]. right. by exists text.
  - intros [= <-]. simpl. split; [| split].
    + split; [discriminate |]. by intros (text' & ? & _).
    + discriminate.
    + intros _. repeat split. exists e. split; [done |]. by left.
Qed.

End InsightLaws.

Lemma insights_status_tells_source_witness :
  exists r : InsightsResult,
    generate_health_insights (answering "Here you go: {} enjoy") loads_empty_object
      show_number show_no_trends show_no_anomalies sample_data = Py.Ok r /\
    status r = "success" /\ confidence r = Some (9 # 10).
Proof.
  eexists. split; [reflexivity |]. split; [reflexivity |].
  apply (insights_status_tells_source (answering "Here you go: {} enjoy")
           loads_empty_object show_number show_no_trends show_no_anomalies
           sample_data _ eq_refl).
  reflexivity.
Defined.

(** ** [GeminiChatAgent] and [integrate_gemini_with_agents] *)

(** One entry of [chat_history]. *)
Record ChatEntry : Type := {
  chat_user : string;
  chat_assistant : string;
  chat_timestamp : Q
}.

Module GeminiChatAgent.

Record t : Type := { chat_history : list ChatEntry }.

Definition __init__ : t := {| chat_history := [] |}.

Section Chat.

Variable generate_content : string -> Py.result string.

(** The text of a context value inside the f-string. *)
Variable format_value : Py.json -> string.

(** [health_context.get(key, 'N/A')], formatted *)
Definition context_field (health_context : gmap string Py.json) (key : string) : string :=
  match health_context !! key with
  | Some v => format_value v
  | None => "N/A"
  end.

(** [if health_context:] holds for a dict that is neither [None] nor empty. *)
Definition context_block (health_context : option (gmap string Py.json)) : string :=
  match health_context with
  | Some ctx =>
      if bool_decide (ctx = ∅) then EmptyString
      else
        newline +:+ "HEALTH CONTEXT:" +:+ newline
        +:+ "- Steps: " +:+ context_field ctx "steps" +:+ "/day" +:+ newline
        +:+ "- Heart Rate: " +:+ context_field ctx "heart_rate" +:+ " bpm  " +:+ newline
        +:+ "- Sleep: " +:+ context_field ctx "sleep" +:+ " hours" +:+ newline
        +:+ "- Water: " +:+ context_field ctx "water" +:+ " ml" +:+ newline
        +:+ newline
  | None => EmptyString
  end.

Definition apology : string :=
  "I'm having trouble processing your request right now. Error: ".

Definition full_prompt (user_message : string)
    (health_context : option (gmap string Py.json)) : string :=
  let context_prompt := context_block health_context in
  newline
  +:+ "You are a helpful health assistant. Answer the user's question based on their health data."
  +:+ newline +:+ newline
  +:+ context_prompt +:+ newline +:+ newline
  +:+ "User Question: " +:+ user_message +:+ newline +:+ newline
  +:+ "Provide a helpful, personalized response based on their health metrics."
  +:+ newline.

(** [loop_time] is the reading of [asyncio.get_event_loop().time()]. *)
Definition chat_about_health (self : t) (user_message : string)
    (health_context : option (gmap string Py.json)) (loop_time : Q)
  : Py.result (t * string) :=
  let full_prompt := full_prompt user_message health_context in
  Py.try_except
    (let* chat_response := generate_content full_prompt in
     let self :=
       {| chat_history :=
            chat_history self
            ++ [ {| chat_user := user_message;
                    chat_assistant := chat_response;
                    chat_timestamp := loop_time |} ] |} in
     Py.Ok (self, chat_response))
    (fun e => Py.Ok (self, apology +:+ Py.str_exn e)).

End Chat.

(** [self.chat_history[-10:]] *)
Definition get_chat_history (self : t) : list ChatEntry :=
  drop (length (chat_history self) - 10) (chat_history self).

End GeminiChatAgent.

(** The dict returned by [integrate_gemini_with_agents]: the keys of
    [health_data] and the three added ones. *)
Record EnhancedResult : Type := {
  enhanced_health_data : HealthData;
  gemini_insights : InsightsResult;
  ai_powered : bool;
  enhanced_recommendations : Py.json
}.

(** [d.get(key, dflt)] on a decoded value: only a dict has [get]. *)
Definition json_get (d : Py.json) (key : string) (dflt : Py.json) : Py.result Py.json :=
  match d with
  | Py.JDict _ => Py.Ok (default dflt (Py.lookup key d))
  | _ => Py.Raise (Py.Exception "object has no attribute 'get'")
  end.

Section Integration.

(** [os.getenv('GEMINI_API_KEY')] *)
Variable api_key : option string.

Variable generate_content : string -> Py.result string.
Variable json_loads : string -> Py.result Py.json.
Variable format_number : Q -> string.
Variable json_dumps_trends : gmap string TrendResult -> string.
Variable json_dumps_anomalies : list Anomaly -> string.

(** [GeminiHealthAgent.__init__]: a missing or empty key is refused. *)
Definition GeminiHealthAgent_init : Py.result unit :=
  match api_key with
  | None | Some EmptyString =>
      Py.Raise (Py.Exception "GEMINI_API_KEY not found in environment variables")
  | Some _ => Py.Ok tt
  end.

Definition integrate_gemini_with_agents (health_data : HealthData)
  : Py.result EnhancedResult :=
  let* gemini_agent := GeminiHealthAgent_init in
  let* gemini_result :=
    generate_health_insights generate_content json_loads format_number
      json_dumps_trends json_dumps_anomalies health_data in
  let* recommendations :=
    json_get (insights gemini_result) "recommendations" (Py.JList []) in
  Py.Ok {| enhanced_health_data := health_data;
           gemini_insights := gemini_result;
           ai_powered := true;
           enhanced_recommendations := recommendations |}.

End Integration.

(** *** Laws *)

(** A chat turn never raises.  When the completion call returns, its text is
    the reply and the exchange is appended to the history; when it raises,
    the reply is the apology followed by the error text and the history is
    left as it was. *)
Theorem chat_turn_records_only_successes
    (generate_content : string -> Py.result string) (format_value : Py.json -> string)
    (self : GeminiChatAgent.t) (user_message : string)
    (health_context : option (gmap string Py.json)) (loop_time : Q) :
  exists (self' : GeminiChatAgent.t) (reply : string),
    GeminiChatAgent.chat_about_health generate_content format_value
      self user_message health_context loop_time = Py.Ok (self', reply) /\
    (forall text,
       generate_content
         (GeminiChatAgent.full_prompt format_value user_message health_context)
       = Py.Ok text ->
       reply = text /\
       GeminiChatAgent.chat_history self'
         = GeminiChatAgent.chat_history self
           ++ [ {| chat_user := user_message; chat_assistant := text;
                   chat_timestamp := loop_time |} ]) /\
    (forall e,
       generate_content
         (GeminiChatAgent.full_prompt format_value user_message health_context)
       = Py.Raise e ->
       reply = GeminiChatAgent.apology +:+ Py.str_exn e /\ self' = self).
Proof.
  unfold GeminiChatAgent.chat_about_health.
  destruct (generate_content _) as [text | e] eqn:Hcall; simpl.
  - eexists _, text. split; [reflexivity |]. simpl.
    split; [by intros text' [= <-] | discriminate].
  - eexists self, _. split; [reflexivity |].
    split; [discriminate | by intros e' [= <-]].
Qed.

(** The history handed out is the last 10 exchanges: the whole history when
    it has at most 10 entries, its 10 most recent ones otherwise, in order. *)
Theorem get_chat_history_last_ten (self : GeminiChatAgent.t) :
  length (GeminiChatAgent.get_chat_history self)
    = Nat.min 10 (length (GeminiChatAgent.chat_history self)) /\
  (exists older,
     GeminiChatAgent.chat_history self = older ++ GeminiChatAgent.get_chat_history self) /\
  ((length (GeminiChatAgent.chat_history self) <= 10)%nat ->
   GeminiChatAgent.get_chat_history self = GeminiChatAgent.chat_history self) /\
  (GeminiChatAgent.chat_history self <> [] ->
   last (GeminiChatAgent.get_chat_history self) = last (GeminiChatAgent.chat_history self)).
Proof.
  unfold GeminiChatAgent.get_chat_history.
  set (h := GeminiChatAgent.chat_history self).
  split; [rewrite length_drop; lia |].
  split; [exists (take (length h - 10) h); by rewrite take_drop |].
  split.
  - intros Hle. replace (length h - 10)%nat with 0%nat by lia. reflexivity.
  - intros Hne.
    assert (Hsplit : last h = last (take (length h - 10) h ++ drop (length h - 10) h))
      by (by rewrite take_drop).
    rewrite Hsplit, last_app.
    destruct (last (drop (length h - 10) h)) eqn:Hl; [reflexivity |].
    apply last_None in Hl. apply (f_equal length) in Hl.
    rewrite length_drop in Hl. simpl in Hl.
    destruct h; [done | simpl in Hl; lia].
Qed.

Lemma json_get_fallback (health_data : HealthData) :
  json_get (_fallback_insights health_data) "recommendations" (Py.JList [])
  = Py.Ok (Py.strs (threshold_recommendations
                      (Py.get (default ∅ (summary health_data)) "steps_avg_7d" 0)
                      (Py.get (default ∅ (summary health_data)) "sleep_avg_7d" 0)
                      (Py.get (default ∅ (summary health_data)) "heart_rate_avg_7d" 0))).
Proof.
  destruct (fallback_insights_fields health_data) as (score & _ & _ & Hrecs).
  unfold json_get. rewrite Hrecs. reflexivity.
Qed.

(** The integration refuses to start without an API key.  With a key, and
    with the completion call raising, it returns the input enriched with the
    fallback: the enhanced recommendations are those of the threshold checks,
    and [ai_powered] is set although no model answered. *)
Theorem integrate_marks_fallback_as_ai_powered
    (api_key : option string) (generate_content : string -> Py.result string)
    (json_loads : string -> Py.result Py.json) (format_number : Q -> string)
    (json_dumps_trends : gmap string TrendResult -> string)
    (json_dumps_anomalies : list Anomaly -> string)
    (health_data : HealthData) :
  (api_key = None \/ api_key = Some EmptyString ->
   integrate_gemini_with_agents api_key generate_content json_loads format_number
     json_dumps_trends json_dumps_anomalies health_data
   = Py.Raise (Py.Exception "GEMINI_API_KEY not found in environment variables")) /\
  (forall key e,
     api_key = Some key -> key <> EmptyString ->
     generate_content
       (_create_health_prompt format_number json_dumps_trends json_dumps_anomalies
          health_data) = Py.Raise e ->
     exists r,
       integrate_gemini_with_agents api_key generate_content json_loads format_number
         json_dumps_trends json_dumps_anomalies health_data = Py.Ok r /\
       ai_powered r = true /\
       status (gemini_insights r) = "error" /\
       enhanced_health_data r = health_data /\
       enhanced_recommendations r
         = Py.strs (threshold_recommendations
                      (Py.get (default ∅ (summary health_data)) "steps_avg_7d" 0)
                      (Py.get (default ∅ (summary health_data)) "sleep_avg_7d" 0)
                      (Py.get (default ∅ (summary health_data)) "heart_rate_avg_7d" 0))).
Proof.
  unfold integrate_gemini_with_agents, GeminiHealthAgent_init. split.
  - by intros [-> | ->].
  - intros key e -> Hkey Hraise.
    destruct key as [| c key]; [done |].
    unfold generate_health_insights. rewrite Hraise.
    cbn [Py.bind Py.try_except insights]. rewrite json_get_fallback.
    eexists. split; [reflexivity |]. done.
Qed.

End GeminiAgent.

(* ===================================================================== *)
(** * AI/session_memory.py                                                 *)
(* ===================================================================== *)
Module SessionMemory.

(** A [datetime] is its number of microseconds on the time line; a
    [timedelta] is a number of microseconds. *)
Definition datetime : Type := Z.

Definition timedelta_hours (hours : Z) : Z := (hours * 3600000000)%Z.
Definition timedelta_days (days : Z) : Z := (days * 86400000000)%Z.

Record HealthSession : Type := {
  session_id : string;
  user_id : string;
  timestamp : datetime;
  data_summary : Py.json;
  analysis_results : Py.json;
  wellness_score : Q;
  recommendations : list string
}.

(** The [data] dict handed to [create_session]: the four keys it reads, each
    possibly missing, and whatever else the caller put in. *)
Record SessionData : Type := {
  sd_summary : option Py.json;
  sd_analysis : option Py.json;
  sd_wellness_score : option Q;
  sd_recommendations : option (list string);
  sd_other : gmap string Py.json
}.

(** One value of [session_state]: the three keys set at creation, and the
    further keys that [update] may add. *)
Record SessionState : Type := {
  st_status : string;
  st_last_activity : datetime;
  st_context : SessionData;
  st_extra : gmap string Py.json
}.

(** The [updates] dict of [update_session_state]. *)
Record Updates : Type := {
  up_status : option string;
  up_last_activity : option datetime;
  up_context : option SessionData;
  up_extra : gmap string Py.json
}.

(** ** [InMemorySessionService] *)
Module InMemorySessionService.

Record t : Type := {
  active_sessions : gmap string HealthSession;
  session_state : gmap string SessionState
}.

Definition __init__ : t := {| active_sessions := ∅; session_state := ∅ |}.

Section Clock.

(** [now.strftime('%Y%m%d_%H%M%S')] *)
Variable strftime : datetime -> string.

(** The three readings of the clock are [now_id], [now_ts] and [now_act]. *)
Definition create_session (self : t) (user_id : string) (data : SessionData)
    (now_id now_ts now_act : datetime) : t * string :=
  let session_id := user_id +:+ "_" +:+ strftime now_id in
  let session :=
    {| session_id := session_id;
       user_id := user_id;
       timestamp := now_ts;
       data_summary := default (Py.JDict []) (sd_summary data);
       analysis_results := default (Py.JDict []) (sd_analysis data);
       wellness_score := default 0 (sd_wellness_score data);
       recommendations := default [] (sd_recommendations data) |} in
  ({| active_sessions := <[session_id := session]> (active_sessions self);
      session_state :=
        <[session_id := {| st_status := "active";
                           st_last_activity := now_act;
                           st_context := data;
                           st_extra := ∅ |}]> (session_state self) |},
   session_id).

End Clock.

Definition get_session (self : t) (session_id : string) : option HealthSession :=
  active_sessions self !! session_id.

(** [state.update(updates)] *)
Definition dict_update (state : SessionState) (updates : Updates) : SessionState :=
  {| st_status := default (st_status state) (up_status updates);
     st_last_activity := default (st_last_activity state) (up_last_activity updates);
     st_context := default (st_context state) (up_context updates);
     st_extra := up_extra updates ∪ st_extra state |}.

Definition update_session_state (self : t) (session_id : string) (updates : Updates)
    (now : datetime) : t :=
  match session_state self !! session_id with
  | Some state =>
      let state := dict_update state updates in
      let state := {| st_status := st_status state;
                      st_last_activity := now;
                      st_context := st_context state;
                      st_extra := st_extra state |} in
      {| active_sessions := active_sessions self;
         session_state := <[session_id := state]> (session_state self) |}
  | None => self
  end.

Definition pause_session (self : t) (session_id : string) : t :=
  match session_state self !! session_id with
  | Some state =>
      {| active_sessions := active_sessions self;
         session_state :=
           <[session_id := {| st_status := "paused";
                              st_last_activity := st_last_activity state;
                              st_context := st_context state;
                              st_extra := st_extra state |}]> (session_state self) |}
  | None => self
  end.

Definition resume_session (self : t) (session_id : string) (now : datetime) : t :=
  match session_state self !! session_id with
  | Some state =>
      {| active_sessions := active_sessions self;
         session_state :=
           <[session_id := {| st_status := "active";
                              st_last_activity := now;
                              st_context := st_context state;
                              st_extra := st_extra state |}]> (session_state self) |}
  | None => self
  end.

(** The body of the loop over [expired]: both [pop(session_id, None)]. *)
Definition pop_session (self : t) (session_id : string) : t :=
  {| active_sessions := delete session_id (active_sessions self);
     session_state := delete session_id (session_state self) |}.

Definition cleanup_expired_sessions (self : t) (hours : Z) (now : datetime) : t * nat :=
  let cutoff := (now - timedelta_hours hours)%Z in
  let expired :=
    (filter (fun kv => (st_last_activity (snd kv) < cutoff)%Z)
       (map_to_list (session_state self))).*1 in
  (foldl pop_session self expired, length expired).

End InMemorySessionService.

(** ** [MemoryBank]: the SQLite tables, as lists of rows *)
Module MemoryBank.

(** A row of [sessions]; [session_id] is the primary key.  The TEXT columns
    hold the values whose [json.dumps] / [isoformat] the code stores. *)
Record SessionRow : Type := {
  row_session_id : string;
  row_user_id : string;
  row_timestamp : datetime;
  row_data_summary : Py.json;
  row_analysis_results : Py.json;
  row_wellness_score : Q;
  row_recommendations : list string
}.

(** A row of [user_patterns]; the primary key is [(user_id, pattern_type)]. *)
Record PatternRow : Type := {
  pat_user_id : string;
  pat_pattern_type : string;
  pat_pattern_data : Py.json;
  pat_confidence : Q;
  pat_last_updated : datetime
}.

Record t : Type := {
  sessions : list SessionRow;
  user_patterns : list PatternRow
}.

(** [_init_database] on a fresh file *)
Definition __init__ : t := {| sessions := []; user_patterns := [] |}.

Definition session_row (session : HealthSession) : SessionRow :=
  {| row_session_id := session_id session;
     row_user_id := user_id session;
     row_timestamp := timestamp session;
     row_data_summary := data_summary session;
     row_analysis_results := analysis_results session;
     row_wellness_score := wellness_score session;
     row_recommendations := recommendations session |}.

(** [INSERT OR REPLACE INTO sessions]: the rows in conflict on the primary
    key are deleted, then the new row is inserted. *)
Definition store_session (self : t) (session : HealthSession) : t :=
  {| sessions :=
       filter (fun r => row_session_id r <> session_id session) (sessions self)
       ++ [session_row session];
     user_patterns := user_patterns self |}.

(** [SELECT * FROM sessions WHERE user_id = ? AND timestamp >= ?
     ORDER BY timestamp DESC] *)
Definition newer_first (a b : SessionRow) : Prop := (row_timestamp b <= row_timestamp a)%Z.

#[local] Instance newer_first_dec (a b : SessionRow) : Decision (newer_first a b) :=
  decide (row_timestamp b <= row_timestamp a)%Z.

Definition get_user_history (self : t) (user_id : string) (days : Z) (now : datetime)
  : list SessionRow :=
  let cutoff := (now - timedelta_days days)%Z in
  merge_sort newer_first
    (filter (fun r => row_user_id r = user_id /\ (cutoff <= row_timestamp r)%Z)
       (sessions self)).

(** [INSERT OR REPLACE INTO user_patterns] *)
Definition store_user_pattern (self : t) (user_id pattern_type : string)
    (pattern_data : Py.json) (confidence : Q) (now : datetime) : t :=
  {| sessions := sessions self;
     user_patterns :=
       filter (fun r => ~ (pat_user_id r = user_id /\ pat_pattern_type r = pattern_type))
         (user_patterns self)
       ++ [ {| pat_user_id := user_id;
               pat_pattern_type := pattern_type;
               pat_pattern_data := pattern_data;
               pat_confidence := confidence;
               pat_last_updated := now |} ] |}.

(** One value of the dict that [get_user_patterns] returns. *)
Record Pattern : Type := {
  p_data : Py.json;
  p_confidence : Q;
  p_last_updated : datetime
}.

(** [SELECT pattern_type, pattern_data, confidence, last_updated
     FROM user_patterns WHERE user_id = ?], each row filed under its
    pattern type. *)
Definition get_user_patterns (self : t) (user_id : string) : gmap string Pattern :=
  foldl (fun patterns row =>
           <[pat_pattern_type row :=
               {| p_data := pat_pattern_data row;
                  p_confidence := pat_confidence row;
                  p_last_updated := pat_last_updated row |}]> patterns)
    ∅ (filter (fun r => pat_user_id r = user_id) (user_patterns self)).

End MemoryBank.

(** ** [HealthMemoryManager] *)
Module HealthMemoryManager.

Record t : Type := {
  session_service : InMemorySessionService.t;
  memory_bank : MemoryBank.t
}.

Definition __init__ : t :=
  {| session_service := InMemorySessionService.__init__;
     memory_bank := MemoryBank.__init__ |}.

(** [sum(xs)], [max(xs)] and [min(xs)] of a list with first element [x]. *)
Definition sum (xs : list Q) : Q := foldl Qplus 0 xs.
Definition max_from (x : Q) (xs : list Q) : Q := foldl Qmax x xs.
Definition min_from (x : Q) (xs : list Q) : Q := foldl Qmin x xs.

(** The clock is read at [now_history] and, when a pattern is stored, at
    [now_pattern]. *)
Definition _identify_patterns (bank : MemoryBank.t) (session : HealthSession)
    (now_history now_pattern : datetime) : MemoryBank.t :=
  let user_id := user_id session in
  let history := MemoryBank.get_user_history bank user_id 14 now_history in
  if bool_decide (3 <= length history)%nat then
    let sleep_scores := map MemoryBank.row_wellness_score history in
    match sleep_scores, last sleep_scores with
    | s_first :: rest, Some s_last =>
        if bool_decide (3 <= length sleep_scores)%nat then
          let avg_score := sum sleep_scores / inject_Z (Z.of_nat (length sleep_scores)) in
          let trend := if Py.gt s_first s_last then "improving" else "stable" in
          MemoryBank.store_user_pattern bank user_id "wellness_trend"
            (Py.JDict
               [ ("average_score", Py.JNum avg_score);
                 ("trend", Py.JStr trend);
                 ("consistency",
                  Py.JStr (if Py.lt (max_from s_first rest - min_from s_first rest) 10
                           then "high" else "variable")) ])
            (8 # 10) now_pattern
        else bank
    | _, _ => bank
    end
  else bank.

Definition finalize_session (self : t) (session_id : string)
    (now_history now_pattern : datetime) : t :=
  match InMemorySessionService.get_session (session_service self) session_id with
  | Some session =>
      let bank := MemoryBank.store_session (memory_bank self) session in
      let bank := _identify_patterns bank session now_history now_pattern in
      {| session_service := session_service self; memory_bank := bank |}
  | None => self
  end.

End HealthMemoryManager.

(** ** Properties of the session store *)

Import InMemorySessionService.

(** Deleting a list of keys, one after the other. *)
Lemma lookup_foldl_delete {A} (m : gmap string A) (ks : list string) (i : string) :
  foldl (fun m k => delete k m) m ks !! i =
  if decide (i ∈ ks) then None else m !! i.
Proof.
  revert m. induction ks as [| k ks IH]; intros m; cbn [foldl].
  - case_decide as Hin; [by apply elem_of_nil in Hin | done].
  - rewrite IH. destruct (decide (i ∈ ks)) as [Hin | Hnot].
    + case_decide as Hin'; [done |].
      exfalso. apply Hin'. by apply list_elem_of_further.
    + destruct (decide (i = k)) as [-> | Hne].
      * case_decide as Hin'; [| exfalso; apply Hin', list_elem_of_here].
        apply lookup_delete_eq.
      * case_decide as Hin'.
        { apply elem_of_cons in Hin' as [? | ?]; contradiction. }
        by apply lookup_delete_ne.
Qed.

Lemma size_foldl_delete {A} (m : gmap string A) (ks : list string) :
  NoDup ks -> Forall (fun k => is_Some (m !! k)) ks ->
  (size (foldl (fun m k => delete k m) m ks) + length ks = size m)%nat.
Proof.
  revert m. induction ks as [| k ks IH]; intros m Hnd Hall; simpl; [lia |].
  apply NoDup_cons in Hnd as [Hk Hnd]. apply Forall_cons in Hall as [Hsome Hall].
  assert (Hall' : Forall (fun j => is_Some (delete k m !! j)) ks).
  { rewrite Forall_forall in Hall |- *. intros j Hj.
    rewrite lookup_delete_ne; [by apply Hall |]. intros ->. contradiction. }
  specialize (IH (delete k m) Hnd Hall').
  rewrite map_size_delete_Some in IH by exact Hsome.
  assert (size m <> 0%nat).
  { intros Hempty. apply map_size_empty_inv in Hempty. subst m.
    destruct Hsome as [x Hx]. by rewrite lookup_empty in Hx. }
  lia.
Qed.

Lemma foldl_pop_session (self : t) (ks : list string) :
  active_sessions (foldl pop_session self ks)
    = foldl (fun m k => delete k m) (active_sessions self) ks /\
  session_state (foldl pop_session self ks)
    = foldl (fun m k => delete k m) (session_state self) ks.
Proof.
  revert self. induction ks as [| k ks IH]; intros self; simpl; [done |].
  apply IH.
Qed.

(** A session is expired when its state's last activity predates the cutoff. *)
Definition expired (self : t) (cutoff : datetime) (sid : string) : Prop :=
  exists state, session_state self !! sid = Some state /\
                (st_last_activity state < cutoff)%Z.

(** The ids that [cleanup_expired_sessions] collects. *)
Definition expired_ids (self : t) (cutoff : datetime) : list string :=
  (filter (fun kv => (st_last_activity (snd kv) < cutoff)%Z)
     (map_to_list (session_state self))).*1.

Lemma expired_ids_spec self cutoff sid :
  sid ∈ expired_ids self cutoff <-> expired self cutoff sid.
Proof.
  unfold expired_ids, expired. rewrite list_elem_of_fmap. split.
  - intros ([k state] & -> & Hin). apply list_elem_of_filter in Hin as [Hlt Hin].
    apply elem_of_map_to_list in Hin. eauto.
  - intros (state & Hlook & Hlt). exists (sid, state). split; [done |].
    apply list_elem_of_filter. split; [done | by apply elem_of_map_to_list].
Qed.

Lemma expired_ids_NoDup self cutoff : NoDup (expired_ids self cutoff).
Proof.
  unfold expired_ids.
  eapply sublist_NoDup; [apply (NoDup_fst_map_to_list (session_state self)) |].
  apply fmap_sublist, sublist_filter.
Qed.

(** C8. [cleanup_expired_sessions] removes, from both maps, exactly the
    sessions whose last activity is strictly before now minus the ttl, leaves
    the entries of every other session as they were, and returns the number
    of sessions it removed. *)
Theorem cleanup_removes_exactly_expired (self : t) (hours : Z) (now : datetime) :
  (forall sid, expired self (now - timedelta_hours hours)%Z sid ->
     active_sessions (cleanup_expired_sessions self hours now).1 !! sid = None /\
     session_state (cleanup_expired_sessions self hours now).1 !! sid = None) /\
  (forall sid, ~ expired self (now - timedelta_hours hours)%Z sid ->
     active_sessions (cleanup_expired_sessions self hours now).1 !! sid
       = active_sessions self !! sid /\
     session_state (cleanup_expired_sessions self hours now).1 !! sid
       = session_state self !! sid) /\
  (size (session_state (cleanup_expired_sessions self hours now).1)
   + (cleanup_expired_sessions self hours now).2 = size (session_state self))%nat.
Proof.
  unfold cleanup_expired_sessions. simpl.
  fold (expired_ids self (now - timedelta_hours hours)%Z).
  set (cutoff := (now - timedelta_hours hours)%Z).
  destruct (foldl_pop_session self (expired_ids self cutoff)) as [-> ->].
  split; [| split].
  - intros sid Hexp. apply expired_ids_spec in Hexp.
    rewrite !lookup_foldl_delete. by rewrite !decide_True.
  - intros sid Hexp. rewrite <- expired_ids_spec in Hexp.
    rewrite !lookup_foldl_delete. by rewrite !decide_False.
  - apply size_foldl_delete; [apply expired_ids_NoDup |].
    apply Forall_forall. intros sid Hin.
    apply expired_ids_spec in Hin as (state & Hlook & _). by eexists.
Qed.

(** ** Sessions that are not in the store *)

(** C10. For a session id that the store does not hold, [get_session]
    returns nothing and [update_session_state], [pause_session] and
    [resume_session] leave the store, both maps, exactly as it was. *)
Theorem absent_session_operations_are_noops
    (self : t) (sid : string) (updates : Updates) (now : datetime) :
  active_sessions self !! sid = None ->
  session_state self !! sid = None ->
  get_session self sid = None /\
  update_session_state self sid updates now = self /\
  pause_session self sid = self /\
  resume_session self sid now = self.
Proof.
  intros Hactive Hstate.
  unfold get_session, update_session_state, pause_session, resume_session.
  by rewrite Hactive, Hstate.
Qed.

Lemma absent_session_operations_are_noops_witness :
  active_sessions __init__ !! "nobody_20240101_000000" = None /\
  session_state __init__ !! "nobody_20240101_000000" = None /\
  get_session __init__ "nobody_20240101_000000" = None /\
  pause_session __init__ "nobody_20240101_000000" = __init__.
Proof.
  split; [reflexivity |]. split; [reflexivity |].
  destruct (absent_session_operations_are_noops __init__ "nobody_20240101_000000"
              {| up_status := Some "paused"; up_last_activity := None;
                 up_context := None; up_extra := ∅ |} 0%Z eq_refl eq_refl)
    as (Hget & _ & Hpause & _).
  split; [exact Hget | exact Hpause].
Defined.

(** ** Finalizing a session *)

Lemma filter_conflicting_none (key : string) (rows : list MemoryBank.SessionRow) :
  filter (fun r => MemoryBank.row_session_id r = key)
    (filter (fun r => MemoryBank.row_session_id r <> key) rows) = [].
Proof.
  induction rows as [| r rows IH]; [done |].
  rewrite (filter_cons (fun r => MemoryBank.row_session_id r <> key)).
  destruct (decide (MemoryBank.row_session_id r <> key)) as [Hne | Heq]; [| exact IH].
  rewrite filter_cons. by rewrite decide_False.
Qed.

(** After a store, the table holds one row under the session's key: the
    session just stored. *)
Lemma store_session_unique (bank : MemoryBank.t) (session : HealthSession) :
  filter (fun r => MemoryBank.row_session_id r = session_id session)
    (MemoryBank.sessions (MemoryBank.store_session bank session))
  = [MemoryBank.session_row session].
Proof.
  unfold MemoryBank.store_session. simpl.
  rewrite filter_app, filter_conflicting_none. simpl.
  rewrite filter_cons. by rewrite decide_True.
Qed.

Lemma identify_patterns_sessions bank session now_history now_pattern :
  MemoryBank.sessions
    (HealthMemoryManager._identify_patterns bank session now_history now_pattern)
  = MemoryBank.sessions bank.
Proof.
  unfold HealthMemoryManager._identify_patterns.
  repeat case_match; reflexivity.
Qed.

(** The durable rows kept under a session id. *)
Definition durable_records (self : HealthMemoryManager.t) (key : string)
  : list MemoryBank.SessionRow :=
  filter (fun r => MemoryBank.row_session_id r = key)
    (MemoryBank.sessions (HealthMemoryManager.memory_bank self)).

Lemma finalize_session_service self sid now_history now_pattern :
  HealthMemoryManager.session_service
    (HealthMemoryManager.finalize_session self sid now_history now_pattern)
  = HealthMemoryManager.session_service self.
Proof.
  unfold HealthMemoryManager.finalize_session. by case_match.
Qed.

Lemma finalize_session_records self sid session now_history now_pattern :
  get_session (HealthMemoryManager.session_service self) sid = Some session ->
  durable_records
    (HealthMemoryManager.finalize_session self sid now_history now_pattern)
    (session_id session)
  = [MemoryBank.session_row session].
Proof.
  intros Hget. unfold durable_records, HealthMemoryManager.finalize_session.
  rewrite Hget. simpl. rewrite identify_patterns_sessions.
  apply store_session_unique.
Qed.


(** ** A concrete run *)

(** Timestamps rendered as their number of microseconds. *)
Definition show_instant (now : datetime) : string := pretty now.

Definition demo_data : SessionData :=
  {| sd_summary := None; sd_analysis := None;
     sd_wellness_score := Some (855 # 10);
     sd_recommendations := Some ["Maintain current activity level"];
     sd_other := ∅ |}.

(** One hour in microseconds. *)
Definition hour : Z := 3600000000%Z.

(** A store with one session of user123 created at time 0 and one of
    user456 created 30 hours later. *)
Definition demo_service : t :=
  (create_session show_instant
     (create_session show_instant __init__ "user123" demo_data 0%Z 0%Z 0%Z).1
     "user456" demo_data (30 * hour)%Z (30 * hour)%Z (30 * hour)%Z).1.

Definition demo_manager : HealthMemoryManager.t :=
  {| HealthMemoryManager.session_service := demo_service;
     HealthMemoryManager.memory_bank := MemoryBank.__init__ |}.

(** Cleaning up with a 24 hour ttl at hour 31 removes the first session
    only, from both maps, and reports one removal. *)
Example cleanup_demo :
  let '(after, removed) := cleanup_expired_sessions demo_service 24%Z (31 * hour)%Z in
  removed = 1%nat /\
  active_sessions after !! "user123_0" = None /\
  session_state after !! "user123_0" = None /\
  is_Some (active_sessions after !! "user456_108000000000") /\
  is_Some (session_state after !! "user456_108000000000").
Proof. vm_compute. repeat split; by eexists. Qed.


(** ** Further laws of the in-memory store *)

(** The lookups after a cleanup, in one equation per map. *)
Lemma cleanup_lookup (self : t) (hours : Z) (now : datetime) (sid : string) :
  active_sessions (cleanup_expired_sessions self hours now).1 !! sid
    = (if decide (sid ∈ expired_ids self (now - timedelta_hours hours)%Z)
       then None else active_sessions self !! sid) /\
  session_state (cleanup_expired_sessions self hours now).1 !! sid
    = (if decide (sid ∈ expired_ids self (now - timedelta_hours hours)%Z)
       then None else session_state self !! sid).
Proof.
  unfold cleanup_expired_sessions. simpl.
  fold (expired_ids self (now - timedelta_hours hours)%Z).
  destruct (foldl_pop_session self (expired_ids self (now - timedelta_hours hours)%Z))
    as [-> ->].
  by rewrite !lookup_foldl_delete.
Qed.

(** Creating a session and reading it back: the new id is the user id and
    the formatted clock reading; under it the store holds the session built
    from [data] and an active state stamped with the third clock reading;
    every other id keeps its entries. *)
Theorem create_session_then_get
    (strftime : datetime -> string) (self : t) (user : string) (data : SessionData)
    (now_id now_ts now_act : datetime) :
  (create_session strftime self user data now_id now_ts now_act).2
    = user +:+ "_" +:+ strftime now_id /\
  get_session (create_session strftime self user data now_id now_ts now_act).1
    (create_session strftime self user data now_id now_ts now_act).2
    = Some {| session_id := user +:+ "_" +:+ strftime now_id;
              user_id := user;
              timestamp := now_ts;
              data_summary := default (Py.JDict []) (sd_summary data);
              analysis_results := default (Py.JDict []) (sd_analysis data);
              wellness_score := default 0 (sd_wellness_score data);
              recommendations := default [] (sd_recommendations data) |} /\
  session_state (create_session strftime self user data now_id now_ts now_act).1
    !! (create_session strftime self user data now_id now_ts now_act).2
    = Some {| st_status := "active"; st_last_activity := now_act;
              st_context := data; st_extra := ∅ |} /\
  forall other : string,
    other <> user +:+ "_" +:+ strftime now_id ->
    get_session (create_session strftime self user data now_id now_ts now_act).1 other
      = get_session self other /\
    session_state (create_session strftime self user data now_id now_ts now_act).1 !! other
      = session_state self !! other.
Proof.
  unfold create_session, get_session. simpl.
  split; [reflexivity |]. split; [apply lookup_insert_eq |].
  split; [apply lookup_insert_eq |].
  intros other Hne. split; by apply lookup_insert_ne.
Qed.

(** Session ids are not unique: two creations for the same user whose clock
    readings format alike get the same id, and the later session replaces
    the earlier one, so the store holds one session for the two calls. *)
Theorem create_session_same_second_replaces
    (strftime : datetime -> string) (self : t) (user : string)
    (data data' : SessionData) (t1 t2 t3 t1' t2' t3' : datetime) :
  strftime t1 = strftime t1' ->
  (create_session strftime
     (create_session strftime self user data t1 t2 t3).1
     user data' t1' t2' t3').2
    = (create_session strftime self user data t1 t2 t3).2 /\
  create_session strftime
    (create_session strftime self user data t1 t2 t3).1
    user data' t1' t2' t3'
    = create_session strftime self user data' t1' t2' t3'.
Proof.
  intros Hsame. unfold create_session. simpl. rewrite <- Hsame.
  split; [reflexivity |]. by rewrite !insert_insert_eq.
Qed.

Lemma create_session_same_second_replaces_witness :
  show_instant 0%Z = show_instant 0%Z /\
  size (active_sessions
          (create_session show_instant
             (create_session show_instant __init__ "user123" demo_data 0%Z 0%Z 0%Z).1
             "user123" demo_data 0%Z 5%Z 5%Z).1) = 1%nat.
Proof.
  split; [reflexivity |].
  destruct (create_session_same_second_replaces show_instant __init__ "user123"
              demo_data demo_data 0%Z 0%Z 0%Z 0%Z 5%Z 5%Z eq_refl) as [_ ->].
  vm_compute. reflexivity.
Defined.

(** The two maps of the store describe the same sessions, each filed under
    its own id. *)
Definition consistent (self : t) : Prop :=
  dom (active_sessions self) = dom (session_state self) /\
  forall (k : string) (s : HealthSession),
    active_sessions self !! k = Some s -> session_id s = k.

Lemma dom_insert_present {A} (m : gmap string A) (k : string) (x : A) :
  is_Some (m !! k) -> dom (<[k := x]> m) = dom m.
Proof.
  intros Hk. apply set_eq. intros j. rewrite dom_insert_L, elem_of_union, elem_of_singleton.
  split; [intros [-> | Hj]; [by apply elem_of_dom | exact Hj] | by right].
Qed.

Lemma cleanup_consistent self hours now :
  consistent self -> consistent (cleanup_expired_sessions self hours now).1.
Proof.
  intros [Hdom Hid]. split.
  - apply set_eq. intros k. rewrite !elem_of_dom.
    destruct (cleanup_lookup self hours now k) as [-> ->].
    destruct (decide (k ∈ _)) as [Hin | Hnot].
    + split; intros [x Hx]; discriminate.
    + rewrite <- !elem_of_dom. by rewrite Hdom.
  - intros k s. destruct (cleanup_lookup self hours now k) as [-> _].
    destruct (decide (k ∈ _)); [done | apply Hid].
Qed.

(** Every operation of the store keeps the two maps consistent. *)
Theorem operations_keep_store_consistent
    (strftime : datetime -> string) (self : t) (sid user : string)
    (data : SessionData) (updates : Updates) (hours : Z)
    (now now_id now_ts now_act : datetime) :
  consistent self ->
  consistent (create_session strftime self user data now_id now_ts now_act).1 /\
  consistent (update_session_state self sid updates now) /\
  consistent (pause_session self sid) /\
  consistent (resume_session self sid now) /\
  consistent (cleanup_expired_sessions self hours now).1.
Proof.
  intros Hc. pose proof Hc as [Hdom Hid].
  split; [| split; [| split; [| split]]].
  - split; simpl.
    + by rewrite !dom_insert_L, Hdom.
    + intros k s Hk. destruct (decide (k = user +:+ "_" +:+ strftime now_id)) as [-> | Hne].
      * rewrite lookup_insert_eq in Hk. by injection Hk as <-.
      * rewrite lookup_insert_ne in Hk by done. by apply Hid.
  - unfold update_session_state.
    destruct (session_state self !! sid) as [st |] eqn:Hst; [| exact Hc].
    split; simpl; [| exact Hid]. by rewrite dom_insert_present.
  - unfold pause_session.
    destruct (session_state self !! sid) as [st |] eqn:Hst; [| exact Hc].
    split; simpl; [| exact Hid]. by rewrite dom_insert_present.
  - unfold resume_session.
    destruct (session_state self !! sid) as [st |] eqn:Hst; [| exact Hc].
    split; simpl; [| exact Hid]. by rewrite dom_insert_present.
  - by apply cleanup_consistent.
Qed.

Lemma init_consistent : consistent __init__.
Proof. split; [reflexivity |]. intros k s Hk. simpl in Hk. by rewrite lookup_empty in Hk. Qed.

Lemma operations_keep_store_consistent_witness :
  consistent __init__ /\ consistent demo_service.
Proof.
  split; [exact init_consistent |].
  apply (operations_keep_store_consistent show_instant
           (create_session show_instant __init__ "user123" demo_data 0%Z 0%Z 0%Z).1
           "user123_0" "user456" demo_data
           {| up_status := None; up_last_activity := None;
              up_context := None; up_extra := ∅ |}
           24%Z 0%Z (30 * hour)%Z (30 * hour)%Z (30 * hour)%Z).
  apply (operations_keep_store_consistent show_instant __init__
           "user123_0" "user123" demo_data
           {| up_status := None; up_last_activity := None;
              up_context := None; up_extra := ∅ |}
           24%Z 0%Z 0%Z 0%Z 0%Z init_consistent).
Defined.

(** Resuming erases a pause: pausing and then resuming a session leaves the
    store exactly as resuming alone does. *)
Theorem resume_after_pause (self : t) (sid : string) (now : datetime) :
  resume_session (pause_session self sid) sid now = resume_session self sid now.
Proof.
  unfold resume_session, pause_session.
  destruct (session_state self !! sid) as [st |] eqn:Hst; simpl.
  - rewrite lookup_insert_eq. simpl. by rewrite insert_insert_eq.
  - by rewrite Hst.
Qed.

(** An update cannot backdate a session: whatever [updates] carries, also a
    [last_activity] of its own, the state ends stamped with [now]; status and
    context are those of [updates] when it has them; the session record and
    all other sessions are untouched. *)
Theorem update_session_state_stamps_now
    (self : t) (sid : string) (state : SessionState) (updates : Updates)
    (now : datetime) :
  session_state self !! sid = Some state ->
  session_state (update_session_state self sid updates now) !! sid
    = Some {| st_status := default (st_status state) (up_status updates);
              st_last_activity := now;
              st_context := default (st_context state) (up_context updates);
              st_extra := up_extra updates ∪ st_extra state |} /\
  active_sessions (update_session_state self sid updates now) = active_sessions self /\
  forall other : string,
    other <> sid ->
    session_state (update_session_state self sid updates now) !! other
      = session_state self !! other.
Proof.
  intros Hst. unfold update_session_state. rewrite Hst. simpl.
  split; [apply lookup_insert_eq |]. split; [reflexivity |].
  intros other Hne. by apply lookup_insert_ne.
Qed.

Lemma update_session_state_stamps_now_witness :
  session_state demo_service !! "user123_0"
    = Some {| st_status := "active"; st_last_activity := 0%Z;
              st_context := demo_data; st_extra := ∅ |} /\
  st_last_activity
    <$> (session_state
           (update_session_state demo_service "user123_0"
              {| up_status := Some "reviewed"; up_last_activity := Some (-5)%Z;
                 up_context := None; up_extra := ∅ |} (7 * hour)%Z) !! "user123_0")
    = Some (7 * hour)%Z.
Proof.
  assert (Hst : session_state demo_service !! "user123_0"
                = Some {| st_status := "active"; st_last_activity := 0%Z;
                          st_context := demo_data; st_extra := ∅ |})
    by (vm_compute; reflexivity).
  split; [exact Hst |].
  destruct (update_session_state_stamps_now demo_service "user123_0" _
              {| up_status := Some "reviewed"; up_last_activity := Some (-5)%Z;
                 up_context := None; up_extra := ∅ |} (7 * hour)%Z Hst) as [-> _].
  reflexivity.
Defined.

(** A session touched at [touched] outlives every cleanup whose cutoff is
    not later than [touched]: after [resume_session] or
    [update_session_state] at that time, the cleanup keeps its session
    record and its state. *)
Lemma fresh_state_survives (self : t) (sid : string) (state : SessionState)
    (hours : Z) (now : datetime) :
  session_state self !! sid = Some state ->
  (now - timedelta_hours hours <= st_last_activity state)%Z ->
  active_sessions (cleanup_expired_sessions self hours now).1 !! sid
    = active_sessions self !! sid /\
  session_state (cleanup_expired_sessions self hours now).1 !! sid = Some state.
Proof.
  intros Hst Hfresh.
  destruct (cleanup_lookup self hours now sid) as [-> ->].
  destruct (decide (sid ∈ _)) as [Hin | _]; [| by rewrite Hst].
  apply expired_ids_spec in Hin as (state' & Hst' & Hlt).
  rewrite Hst in Hst'. injection Hst' as <-. lia.
Qed.

Theorem touched_session_survives_cleanup
    (self : t) (sid : string) (state : SessionState) (updates : Updates)
    (hours : Z) (touched now : datetime) :
  session_state self !! sid = Some state ->
  (now - timedelta_hours hours <= touched)%Z ->
  (active_sessions
     (cleanup_expired_sessions (resume_session self sid touched) hours now).1 !! sid
     = active_sessions self !! sid /\
   is_Some (session_state
     (cleanup_expired_sessions (resume_session self sid touched) hours now).1 !! sid)) /\
  (active_sessions
     (cleanup_expired_sessions (update_session_state self sid updates touched) hours now).1
     !! sid = active_sessions self !! sid /\
   is_Some (session_state
     (cleanup_expired_sessions (update_session_state self sid updates touched) hours now).1
     !! sid)).
Proof.
  intros Hst Hfresh. split.
  - destruct (fresh_state_survives (resume_session self sid touched) sid
                {| st_status := "active"; st_last_activity := touched;
                   st_context := st_context state; st_extra := st_extra state |}
                hours now) as [Ha Hs].
    + unfold resume_session. rewrite Hst. simpl. apply lookup_insert_eq.
    + exact Hfresh.
    + rewrite Ha, Hs. split; [| by eexists].
      unfold resume_session. by rewrite Hst.
  - destruct (fresh_state_survives (update_session_state self sid updates touched) sid
                {| st_status := default (st_status state) (up_status updates);
                   st_last_activity := touched;
                   st_context := default (st_context state) (up_context updates);
                   st_extra := up_extra updates ∪ st_extra state |}
                hours now) as [Ha Hs].
    + unfold update_session_state. rewrite Hst. simpl. apply lookup_insert_eq.
    + exact Hfresh.
    + rewrite Ha, Hs. split; [| by eexists].
      unfold update_session_state. by rewrite Hst.
Qed.

Lemma touched_session_survives_cleanup_witness :
  session_state demo_service !! "user123_0"
    = Some {| st_status := "active"; st_last_activity := 0%Z;
              st_context := demo_data; st_extra := ∅ |} /\
  (40 * hour - timedelta_hours 24 <= 30 * hour)%Z /\
  is_Some (session_state
     (cleanup_expired_sessions
        (resume_session demo_service "user123_0" (30 * hour)%Z) 24%Z (40 * hour)%Z).1
     !! "user123_0").
Proof.
  assert (Hst : session_state demo_service !! "user123_0"
                = Some {| st_status := "active"; st_last_activity := 0%Z;
                          st_context := demo_data; st_extra := ∅ |})
    by (vm_compute; reflexivity).
  assert (Hfresh : (40 * hour - timedelta_hours 24 <= 30 * hour)%Z)
    by (unfold hour, timedelta_hours; lia).
  split; [exact Hst |]. split; [exact Hfresh |].
  exact (proj2 (proj1 (touched_session_survives_cleanup demo_service "user123_0" _
           {| up_status := None; up_last_activity := None;
              up_context := None; up_extra := ∅ |}
           24%Z (30 * hour)%Z (40 * hour)%Z Hst Hfresh))).
Defined.

(** A cleanup leaves nothing for a second cleanup whose cutoff is not later:
    the second one removes no session and reports 0.  In particular the
    cleanup is idempotent. *)
Theorem cleanup_twice_removes_nothing
    (self : t) (hours hours' : Z) (now now' : datetime) :
  (now' - timedelta_hours hours' <= now - timedelta_hours hours)%Z ->
  cleanup_expired_sessions (cleanup_expired_sessions self hours now).1 hours' now'
  = ((cleanup_expired_sessions self hours now).1, 0%nat).
Proof.
  intros Hcut.
  assert (Hnone : expired_ids (cleanup_expired_sessions self hours now).1
                    (now' - timedelta_hours hours')%Z = []).
  { destruct (expired_ids _ _) as [| sid ids] eqn:Hids; [reflexivity |].
    exfalso.
    assert (Hin : sid ∈ expired_ids (cleanup_expired_sessions self hours now).1
                          (now' - timedelta_hours hours')%Z)
      by (rewrite Hids; apply list_elem_of_here).
    apply expired_ids_spec in Hin as (state & Hst & Hlt).
    destruct (cleanup_lookup self hours now sid) as [_ Hlook].
    rewrite Hlook in Hst.
    destruct (decide (sid ∈ _)) as [Hin | Hnot]; [discriminate |].
    apply Hnot, expired_ids_spec. exists state. split; [exact Hst | lia]. }
  unfold cleanup_expired_sessions at 1.
  fold (expired_ids (cleanup_expired_sessions self hours now).1
          (now' - timedelta_hours hours')%Z).
  by rewrite Hnone.
Qed.

Lemma cleanup_twice_removes_nothing_witness :
  (31 * hour - timedelta_hours 24 <= 31 * hour - timedelta_hours 24)%Z /\
  (cleanup_expired_sessions
     (cleanup_expired_sessions demo_service 24%Z (31 * hour)%Z).1 24%Z (31 * hour)%Z).2
  = 0%nat.
Proof.
  assert (Hcut : (31 * hour - timedelta_hours 24 <= 31 * hour - timedelta_hours 24)%Z)
    by apply Z.le_refl.
  split; [exact Hcut |].
  by rewrite (cleanup_twice_removes_nothing demo_service 24%Z 24%Z
                (31 * hour)%Z (31 * hour)%Z Hcut).
Defined.

(** ** Laws of the memory bank *)

(** No two rows of [sessions] share a [session_id]. *)
Definition sessions_keyed (bank : MemoryBank.t) : Prop :=
  NoDup (MemoryBank.row_session_id <$> MemoryBank.sessions bank).

(** No two rows of [user_patterns] share [(user_id, pattern_type)]. *)
Definition patterns_keyed (bank : MemoryBank.t) : Prop :=
  NoDup ((fun r => (MemoryBank.pat_user_id r, MemoryBank.pat_pattern_type r))
           <$> MemoryBank.user_patterns bank).

Lemma filter_one_True {A} (P : A -> Prop) `{!forall x, Decision (P x)} (x : A) :
  P x -> filter P [x] = [x].
Proof. intros HP. rewrite filter_cons. by rewrite decide_True. Qed.

Lemma filter_one_False {A} (P : A -> Prop) `{!forall x, Decision (P x)} (x : A) :
  ~ P x -> filter P [x] = [].
Proof. intros HP. rewrite filter_cons. by rewrite decide_False. Qed.

Lemma NoDup_fmap_filter {A B} (f : A -> B) (P : A -> Prop)
    `{!forall x, Decision (P x)} (l : list A) :
  NoDup (f <$> l) -> NoDup (f <$> filter P l).
Proof.
  intros Hnd. eapply sublist_NoDup; [exact Hnd |].
  apply fmap_sublist, sublist_filter.
Qed.

(** Storing a session keeps the primary key of [sessions] unique, leaves
    the rows of every other session id as they were, and does not touch
    [user_patterns]. *)
Theorem store_session_keeps_primary_key
    (bank : MemoryBank.t) (session : HealthSession) :
  sessions_keyed bank ->
  sessions_keyed (MemoryBank.store_session bank session) /\
  (forall key : string,
     key <> session_id session ->
     filter (fun r => MemoryBank.row_session_id r = key)
       (MemoryBank.sessions (MemoryBank.store_session bank session))
     = filter (fun r => MemoryBank.row_session_id r = key) (MemoryBank.sessions bank)) /\
  MemoryBank.user_patterns (MemoryBank.store_session bank session)
    = MemoryBank.user_patterns bank.
Proof.
  intros Hkeyed. unfold sessions_keyed, MemoryBank.store_session. simpl.
  split; [| split; [| reflexivity]].
  - rewrite fmap_app. apply NoDup_app. split; [by apply NoDup_fmap_filter |].
    split; [| apply NoDup_singleton].
    intros key Hin Hnew. simpl in Hnew. apply list_elem_of_singleton in Hnew.
    apply list_elem_of_fmap in Hin as (r & -> & Hr).
    apply list_elem_of_filter in Hr as [Hne _]. contradiction.
  - intros key Hne. rewrite filter_app.
    rewrite list_filter_filter_l by (intros r ->; exact Hne).
    rewrite filter_one_False by (simpl; congruence).
    by rewrite app_nil_r.
Qed.

Lemma store_session_keeps_primary_key_witness :
  sessions_keyed MemoryBank.__init__ /\
  sessions_keyed
    (HealthMemoryManager.memory_bank
       (HealthMemoryManager.finalize_session demo_manager "user123_0" hour hour)).
Proof.
  assert (H0 : sessions_keyed MemoryBank.__init__) by apply NoDup_nil_2.
  split; [exact H0 |].
  destruct (get_session (HealthMemoryManager.session_service demo_manager) "user123_0")
    as [session |] eqn:Hget; [| vm_compute in Hget; discriminate].
  unfold HealthMemoryManager.finalize_session. rewrite Hget. simpl.
  unfold sessions_keyed. rewrite identify_patterns_sessions.
  apply (store_session_keeps_primary_key MemoryBank.__init__ session H0).
Defined.

#[local] Instance newer_first_total : Total MemoryBank.newer_first.
Proof. intros a b. unfold MemoryBank.newer_first. lia. Qed.

#[local] Instance newer_first_transitive : Transitive MemoryBank.newer_first.
Proof. intros a b c. unfold MemoryBank.newer_first. lia. Qed.

(** The history of a user holds exactly the stored rows of that user whose
    timestamp is not before now minus [days], each as often as the table has
    it, ordered from the newest to the oldest. *)
Theorem get_user_history_newest_first
    (bank : MemoryBank.t) (user : string) (days : Z) (now : datetime) :
  StronglySorted MemoryBank.newer_first
    (MemoryBank.get_user_history bank user days now) /\
  MemoryBank.get_user_history bank user days now
    ≡ₚ filter (fun r => MemoryBank.row_user_id r = user /\
                        (now - timedelta_days days <= MemoryBank.row_timestamp r)%Z)
         (MemoryBank.sessions bank) /\
  forall r : MemoryBank.SessionRow,
    r ∈ MemoryBank.get_user_history bank user days now <->
    r ∈ MemoryBank.sessions bank /\ MemoryBank.row_user_id r = user /\
    (now - timedelta_days days <= MemoryBank.row_timestamp r)%Z.
Proof.
  unfold MemoryBank.get_user_history.
  split; [apply StronglySorted_merge_sort; apply _ |].
  split; [apply merge_sort_Permutation |].
  intros r. rewrite merge_sort_Permutation, list_elem_of_filter. tauto.
Qed.

(** The pattern dict of a user, read from the rows: under each pattern type
    the last row of that user and type, if there is one. *)
Lemma lookup_foldl_patterns (rows : list MemoryBank.PatternRow)
    (m : gmap string MemoryBank.Pattern) (k : string) :
  foldl (fun patterns row =>
           <[MemoryBank.pat_pattern_type row :=
               {| MemoryBank.p_data := MemoryBank.pat_pattern_data row;
                  MemoryBank.p_confidence := MemoryBank.pat_confidence row;
                  MemoryBank.p_last_updated := MemoryBank.pat_last_updated row |}]> patterns)
    m rows !! k
  = match last (filter (fun r => MemoryBank.pat_pattern_type r = k) rows) with
    | Some row => Some {| MemoryBank.p_data := MemoryBank.pat_pattern_data row;
                          MemoryBank.p_confidence := MemoryBank.pat_confidence row;
                          MemoryBank.p_last_updated := MemoryBank.pat_last_updated row |}
    | None => m !! k
    end.
Proof.
  induction rows as [| row rows IH] using rev_ind; [reflexivity |].
  rewrite foldl_snoc, filter_app, filter_cons, filter_nil.
  destruct (decide (MemoryBank.pat_pattern_type row = k)) as [<- | Hne].
  - rewrite last_snoc. apply lookup_insert_eq.
  - rewrite app_nil_r, lookup_insert_ne by done. apply IH.
Qed.

Lemma store_user_pattern_lookup
    (bank : MemoryBank.t) (user pattern_type : string) (pattern_data : Py.json)
    (confidence : Q) (now : datetime) :
  MemoryBank.get_user_patterns
    (MemoryBank.store_user_pattern bank user pattern_type pattern_data confidence now)
    user !! pattern_type
  = Some {| MemoryBank.p_data := pattern_data;
            MemoryBank.p_confidence := confidence;
            MemoryBank.p_last_updated := now |}.
Proof.
  unfold MemoryBank.get_user_patterns, MemoryBank.store_user_pattern. simpl.
  rewrite lookup_foldl_patterns, !filter_app.
  rewrite (filter_one_True (fun r => MemoryBank.pat_user_id r = user)) by done.
  rewrite filter_one_True by done.
  by rewrite last_snoc.
Qed.

(** Storing a pattern and reading the user's patterns back: the stored
    pattern is found under its type with the data, confidence and time of
    the write (a previous pattern of that user and type is replaced); the
    user's other types and other users' patterns are unchanged; the sessions
    table is untouched; the primary key of [user_patterns] stays unique. *)
Theorem store_user_pattern_then_get
    (bank : MemoryBank.t) (user pattern_type : string) (pattern_data : Py.json)
    (confidence : Q) (now : datetime) :
  MemoryBank.get_user_patterns
    (MemoryBank.store_user_pattern bank user pattern_type pattern_data confidence now)
    user !! pattern_type
  = Some {| MemoryBank.p_data := pattern_data;
            MemoryBank.p_confidence := confidence;
            MemoryBank.p_last_updated := now |} /\
  (forall other_type : string,
     other_type <> pattern_type ->
     MemoryBank.get_user_patterns
       (MemoryBank.store_user_pattern bank user pattern_type pattern_data confidence now)
       user !! other_type
     = MemoryBank.get_user_patterns bank user !! other_type) /\
  (forall other_user : string,
     other_user <> user ->
     MemoryBank.get_user_patterns
       (MemoryBank.store_user_pattern bank user pattern_type pattern_data confidence now)
       other_user
     = MemoryBank.get_user_patterns bank other_user) /\
  MemoryBank.sessions
    (MemoryBank.store_user_pattern bank user pattern_type pattern_data confidence now)
    = MemoryBank.sessions bank /\
  (patterns_keyed bank ->
   patterns_keyed
     (MemoryBank.store_user_pattern bank user pattern_type pattern_data confidence now)).
Proof.
  split; [apply store_user_pattern_lookup |].
  unfold MemoryBank.get_user_patterns, MemoryBank.store_user_pattern. simpl.
  split; [| split; [| split; [reflexivity |]]].
  - intros other Hne. rewrite !lookup_foldl_patterns, !filter_app.
    rewrite (filter_one_True (fun r => MemoryBank.pat_user_id r = user)) by done.
    rewrite filter_one_False by (simpl; congruence).
    rewrite app_nil_r.
    rewrite !list_filter_filter.
    rewrite (list_filter_iff
               (fun a => (MemoryBank.pat_pattern_type a = other /\
                          MemoryBank.pat_user_id a = user) /\
                         ~ (MemoryBank.pat_user_id a = user /\
                            MemoryBank.pat_pattern_type a = pattern_type))
               (fun a => MemoryBank.pat_pattern_type a = other /\
                         MemoryBank.pat_user_id a = user)); [reflexivity |].
    intros r. split; [tauto |].
    intros [Ht Hu]. split; [by split |].
    intros [_ Ht']. congruence.
  - intros other Hne. f_equal. rewrite filter_app.
    rewrite filter_one_False by (simpl; congruence).
    rewrite app_nil_r.
    rewrite list_filter_filter. apply list_filter_iff.
    intros r. split; [tauto |]. intros Hu. split; [exact Hu |].
    intros [Hu' _]. congruence.
  - unfold patterns_keyed. simpl. intros Hkeyed.
    rewrite fmap_app. apply NoDup_app. split; [by apply NoDup_fmap_filter |].
    split; [| apply NoDup_singleton].
    intros key Hin Hnew. simpl in Hnew. apply list_elem_of_singleton in Hnew.
    apply list_elem_of_fmap in Hin as (r & -> & Hr).
    apply list_elem_of_filter in Hr as [Hne _].
    apply Hne. by injection Hnew as -> ->.
Qed.

(** Pattern detection needs three sessions: with fewer than 3 rows in the
    user's 14-day history nothing is stored; with 3 or more, one
    "wellness_trend" pattern of confidence 0.8 is stored for the user, and
    it reads "improving" exactly when the newest wellness score exceeds the
    oldest one, "stable" otherwise. *)
Theorem identify_patterns_needs_three_sessions
    (bank : MemoryBank.t) (session : HealthSession)
    (now_history now_pattern : datetime) :
  ((length (MemoryBank.get_user_history bank (user_id session) 14 now_history) < 3)%nat ->
   HealthMemoryManager._identify_patterns bank session now_history now_pattern = bank) /\
  ((3 <= length (MemoryBank.get_user_history bank (user_id session) 14 now_history))%nat ->
   exists (pattern_data : Py.json) (newest oldest : MemoryBank.SessionRow),
     head (MemoryBank.get_user_history bank (user_id session) 14 now_history)
       = Some newest /\
     last (MemoryBank.get_user_history bank (user_id session) 14 now_history)
       = Some oldest /\
     HealthMemoryManager._identify_patterns bank session now_history now_pattern
       = MemoryBank.store_user_pattern bank (user_id session) "wellness_trend"
           pattern_data (8 # 10) now_pattern /\
     Py.lookup "trend" pattern_data
       = Some (Py.JStr (if Py.gt (MemoryBank.row_wellness_score newest)
                                 (MemoryBank.row_wellness_score oldest)
                        then "improving" else "stable")) /\
     MemoryBank.get_user_patterns
       (HealthMemoryManager._identify_patterns bank session now_history now_pattern)
       (user_id session) !! "wellness_trend"
       = Some {| MemoryBank.p_data := pattern_data;
                 MemoryBank.p_confidence := 8 # 10;
                 MemoryBank.p_last_updated := now_pattern |}).
Proof.
  unfold HealthMemoryManager._identify_patterns.
  set (history := MemoryBank.get_user_history bank (user_id session) 14 now_history).
  split.
  - intros Hlt. rewrite bool_decide_eq_false_2 by lia. reflexivity.
  - intros Hge. rewrite bool_decide_eq_true_2 by exact Hge.
    destruct history as [| newest rest] eqn:Hh; [simpl in Hge; lia |].
    destruct (last (newest :: rest)) as [oldest |] eqn:Hlast;
      [| apply last_None in Hlast; discriminate].
    assert (Hl : last (MemoryBank.row_wellness_score <$> newest :: rest)
                 = Some (MemoryBank.row_wellness_score oldest))
      by (by rewrite fmap_last, Hlast).
    assert (Hn : (3 <= length (MemoryBank.row_wellness_score <$> newest :: rest))%nat)
      by (rewrite length_fmap; exact Hge).
    change (map MemoryBank.row_wellness_score (newest :: rest))
      with (MemoryBank.row_wellness_score <$> newest :: rest).
    rewrite (bool_decide_eq_true_2 _ Hn).
    rewrite fmap_cons in Hl |- *. cbv beta iota. rewrite Hl.
    eexists _, newest, oldest.
    split; [reflexivity |]. split; [reflexivity |]. split; [reflexivity |].
    split; [reflexivity |].
    apply store_user_pattern_lookup.
Qed.

(** Finalizing an id the store does not hold changes nothing; finalizing a
    held session leaves the durable rows of every other session id as they
    were. *)
Theorem finalize_session_frame
    (self : HealthMemoryManager.t) (sid : string) (now_history now_pattern : datetime) :
  (get_session (HealthMemoryManager.session_service self) sid = None ->
   HealthMemoryManager.finalize_session self sid now_history now_pattern = self) /\
  (forall session : HealthSession,
     get_session (HealthMemoryManager.session_service self) sid = Some session ->
     forall key : string,
       key <> session_id session ->
       durable_records
         (HealthMemoryManager.finalize_session self sid now_history now_pattern) key
       = durable_records self key).
Proof.
  unfold HealthMemoryManager.finalize_session. split.
  - by intros ->.
  - intros session -> key Hne. unfold durable_records. simpl.
    rewrite identify_patterns_sessions. simpl.
    rewrite filter_app.
    rewrite list_filter_filter_l by (intros r ->; exact Hne).
    rewrite filter_one_False by (simpl; congruence).
    by rewrite app_nil_r.
Qed.

End SessionMemory.

(* ===================================================================== *)
(** * app/navbar_ai.py                                                     *)
(* ===================================================================== *)
Module NavbarAI.

(** [MetricsInput]: every field is [Optional[float]], so a request may
    carry [null] for it. *)
Record MetricsInput : Type := {
  avgSteps : option Q;
  avgHeartRate : option Q;
  avgSleep : option Q;
  avgWater : option Q
}.

Record NavGreetingRequest : Type := {
  greeting_metrics : MetricsInput;
  greeting_timestamp : string
}.

Record HealthStatusRequest : Type := { status_metrics : MetricsInput }.

Record NavRecommendationsRequest : Type := {
  nav_metrics : MetricsInput;
  currentPage : string
}.

Record ActionItemsRequest : Type := { action_metrics : MetricsInput }.

(** Each anomaly is a dict, given by its items. *)
Record HealthAlertRequest : Type := {
  anomalies : option (list (list (string * Py.json)))
}.

(** What FastAPI sends back: the returned dict with status 200, or the
    [HTTPException(status_code=500, detail=...)]. *)
Inductive Response : Type :=
| HTTP200 (body : Py.json)
| HTTP500 (detail : string).

(** A number read from an optional field: Python raises [TypeError] when an
    operator, or a float format, meets [None]. *)
Definition operand (message : string) (x : option Q) : Py.result Q :=
  match x with
  | Some q => Py.Ok q
  | None => Py.Raise (Py.TypeError message)
  end.

(** The messages of these [TypeError]s. *)
Definition cannot_compare (op : string) : string :=
  "'" +:+ op +:+ "' not supported between instances of 'NoneType' and 'int'".
Definition cannot_compare_float (op : string) : string :=
  "'" +:+ op +:+ "' not supported between instances of 'NoneType' and 'float'".
Definition cannot_apply (op : string) : string :=
  "unsupported operand type(s) for " +:+ op +:+ ": 'NoneType' and 'int'".
Definition cannot_apply_float (op : string) : string :=
  "unsupported operand type(s) for " +:+ op +:+ ": 'NoneType' and 'float'".
Definition cannot_format : string :=
  "unsupported format string passed to NoneType.__format__".

(** ** Mock generators (fallback) *)

Definition generate_mock_greeting (metrics : MetricsInput) : Py.result string :=
  let hour := 12 in
  let time_of_day := if Py.lt hour 17 then "afternoon" else "evening" in
  let* steps := operand (cannot_compare ">=") (avgSteps metrics) in
  let steps_status :=
    if Py.ge steps 8000 then "Great job with your steps"
    else if Py.ge steps 5000 then "Keep moving"
    else "Time to get active" in
  Py.Ok ("Good " +:+ time_of_day +:+ "! " +:+ steps_status +:+ ".").

Definition status_dict (status color : string) (score : Q) : Py.json :=
  Py.JDict [ ("status", Py.JStr status); ("color", Py.JStr color);
             ("score", Py.JNum score) ].

Definition generate_mock_health_status (metrics : MetricsInput) : Py.result Py.json :=
  let* steps := operand (cannot_apply "/") (avgSteps metrics) in
  let* sleep := operand (cannot_apply "/") (avgSleep metrics) in
  let* hr := operand (cannot_apply "-") (avgHeartRate metrics) in
  let* water := operand (cannot_apply_float "/") (avgWater metrics) in
  let score :=
    (steps / 10000) * (3 # 10)
    + (sleep / 8) * (3 # 10)
    + ((100 - Qabs (hr - 70)) / 100) * (2 # 10)
    + (water / (25 # 10)) * (2 # 10) in
  if Py.ge score (8 # 10) then Py.Ok (status_dict "Excellent" "emerald" 85)
  else if Py.ge score (6 # 10) then Py.Ok (status_dict "Good" "blue" 72)
  else Py.Ok (status_dict "Needs Attention" "red" 45).

Definition nav_item (label icon path : string) : Py.json :=
  Py.JDict [ ("label", Py.JStr label); ("icon", Py.JStr icon); ("path", Py.JStr path) ].

Definition recommendations_map : gmap string Py.json :=
  <["/" := Py.JList [ nav_item "View Trends" "TrendingUp" "/trends";
                      nav_item "Get Insights" "Lightbulb" "/insights" ]]>
  (<["/trends" := Py.JList [ nav_item "Check Forecast" "Zap" "/forecast";
                             nav_item "View Dashboard" "BarChart3" "/" ]]>
  (<["/insights" := Py.JList [ nav_item "Chat with AI" "MessageCircle" "/health-assistant";
                               nav_item "Wellness Hub" "Heart" "/wellness-center" ]]> ∅)).

Definition generate_mock_nav_recommendations (current_page : string) : Py.result Py.json :=
  match recommendations_map !! "/" with
  | Some dflt => Py.Ok (default dflt (recommendations_map !! current_page))
  | None => Py.Raise (Py.KeyError "/")
  end.

Definition action_item (title message urgency action : string) : Py.json :=
  Py.JDict [ ("title", Py.JStr title); ("message", Py.JStr message);
             ("urgency", Py.JStr urgency); ("action", Py.JStr action) ].

Definition generate_mock_action_items (metrics : MetricsInput) : Py.result Py.json :=
  let items := [] in
  let* steps := operand (cannot_compare "<") (avgSteps metrics) in
  let items :=
    if Py.lt steps 5000
    then items ++ [action_item "Low Activity" "Try a 15-minute walk" "high" "/wellness-center"]
    else items in
  let* sleep := operand (cannot_compare_float "<") (avgSleep metrics) in
  let items :=
    if Py.lt sleep (65 # 10)
    then items ++ [action_item "Inadequate Sleep" "Aim for 7-9 hours tonight" "high" "/insights"]
    else items in
  let items :=
    if bool_decide (items = [])
    then items ++ [action_item "Keep it Up!" "Your health looks great" "low" "/"]
    else items in
  Py.Ok (Py.JList items).

(** [not anomalies]: [None] and the empty list are both falsy. *)
Definition no_anomalies (anomalies : option (list (list (string * Py.json)))) : bool :=
  match anomalies with
  | None | Some [] => true
  | Some (_ :: _) => false
  end.

Definition generate_mock_alert (anomalies : option (list (list (string * Py.json))))
  : Py.result Py.json :=
  match anomalies with
  | None | Some [] => Py.Ok Py.JNull
  | Some (first :: rest) =>
      Py.Ok (Py.JDict
               [ ("type", Py.JStr "warning");
                 ("message",
                  Py.JStr (pretty (length (first :: rest)) +:+ " metrics need attention"));
                 ("details",
                  default (Py.JStr "Review your health data")
                    (Py.lookup "reason" (Py.JDict first))) ])
  end.

(** ** LLM helpers and routes *)
Section Endpoints.

(** [GEMINI_AVAILABLE]: whether the client library could be imported. *)
Variable GEMINI_AVAILABLE : bool.

(** The completion service: building the model, [generate_content(prompt)]
    and reading [response.text]; any of the three may raise. *)
Variable generate_content : string -> Py.result string.

(** [json.loads] *)
Variable json_loads : string -> Py.result Py.json.

(** [f"{x:.0f}"] and [f"{x:.1f}"] by their number of decimals, and the
    text of an arbitrary value in an f-string. *)
Variable format_float : nat -> Q -> string.
Variable format_value : Py.json -> string.

Definition nl : string := String (ascii_of_nat 10) EmptyString.
Definition double_quote : ascii := ascii_of_nat 34.

Definition fmt (decimals : nat) (x : option Q) : Py.result string :=
  let* q := operand cannot_format x in
  Py.Ok (format_float decimals q).

(** The four metric lines shared by the prompts (their labels differ
    slightly from prompt to prompt in the source; the values do not). *)
Definition metric_lines (metrics : MetricsInput) : Py.result string :=
  let* steps := fmt 0 (avgSteps metrics) in
  let* hr := fmt 0 (avgHeartRate metrics) in
  let* sleep := fmt 1 (avgSleep metrics) in
  let* water := fmt 1 (avgWater metrics) in
  Py.Ok ("- Steps: " +:+ steps +:+ nl
         +:+ "- Heart Rate: " +:+ hr +:+ " bpm" +:+ nl
         +:+ "- Sleep: " +:+ sleep +:+ " hours" +:+ nl
         +:+ "- Water: " +:+ water +:+ "L" +:+ nl).

Definition generate_greeting_with_llm (metrics : MetricsInput) (timestamp : string)
  : Py.result string :=
  if negb GEMINI_AVAILABLE then generate_mock_greeting metrics
  else
    Py.try_except
      (let* lines := metric_lines metrics in
       let prompt :=
         nl +:+ "Generate a brief, friendly greeting (max 20 words) for a health tracking app based on these metrics:" +:+ nl
         +:+ lines +:+ nl
         +:+ "Time: " +:+ timestamp +:+ nl +:+ nl
         +:+ "Keep it encouraging and personalized. No JSON, just the greeting text." +:+ nl in
       let* text := generate_content prompt in
       let greeting := Py.strip_char double_quote (Py.strip text) in
       let greeting :=
         if (Py.len greeting >? 100)%Z then Py.slice greeting 0 97 +:+ "..."
         else greeting in
       Py.Ok greeting)
      (fun e => generate_mock_greeting metrics).

(** The shared tail of the JSON helpers: cut the text from the first
    [opening] to the last [closing] and decode it. *)
Definition extract_json (opening closing : ascii) (text : string)
    (otherwise : Py.result Py.json) : Py.result Py.json :=
  let text := Py.strip text in
  let start := Py.find text opening in
  let end_ := (Py.rfind text closing + 1)%Z in
  if negb (start =? -1)%Z && negb (end_ =? -1)%Z
  then json_loads (Py.slice text start end_)
  else otherwise.

Definition generate_health_status_with_llm (metrics : MetricsInput) : Py.result Py.json :=
  if negb GEMINI_AVAILABLE then generate_mock_health_status metrics
  else
    Py.try_except
      (let* lines := metric_lines metrics in
       let prompt :=
         nl +:+ "Assess the health status based on these metrics:" +:+ nl
         +:+ lines +:+ nl
         +:+ "Provide JSON response with:" +:+ nl
         +:+ "- status: One of 'Excellent', 'Good', 'Fair', 'Needs Attention'" +:+ nl
         +:+ "- color: One of 'emerald', 'blue', 'yellow', 'red'" +:+ nl
         +:+ "- score: 0-100 health score" +:+ nl +:+ nl
         +:+ "Example: {'status': 'Good', 'color': 'blue', 'score': 78}" +:+ nl in
       let* text := generate_content prompt in
       extract_json "{"%char "}"%char text (generate_mock_health_status metrics))
      (fun e => generate_mock_health_status metrics).

Definition generate_nav_recommendations_with_llm (metrics : MetricsInput)
    (current_page : string) : Py.result Py.json :=
  if negb GEMINI_AVAILABLE then generate_mock_nav_recommendations current_page
  else
    Py.try_except
      (let* lines := metric_lines metrics in
       let prompt :=
         nl +:+ "Based on health metrics, suggest 2 next actions for a health tracking app user:" +:+ nl
         +:+ lines
         +:+ "- Current page: " +:+ current_page +:+ nl +:+ nl
         +:+ "Respond with JSON array of 2 recommendations with 'label' and 'path' fields." +:+ nl
         +:+ "Paths should be: /trends, /insights, /forecast, /health-assistant, /wellness-center, /" +:+ nl +:+ nl
         +:+ "Example: [{'label': 'View Sleep Trends', 'icon': 'TrendingUp', 'path': '/trends'}, ...]" +:+ nl in
       let* text := generate_content prompt in
       extract_json "["%char "]"%char text (generate_mock_nav_recommendations current_page))
      (fun e => generate_mock_nav_recommendations current_page).

Definition generate_action_items_with_llm (metrics : MetricsInput) : Py.result Py.json :=
  if negb GEMINI_AVAILABLE then generate_mock_action_items metrics
  else
    Py.try_except
      (let* lines := metric_lines metrics in
       let prompt :=
         nl +:+ "Generate 1-2 actionable health recommendations based on these metrics:" +:+ nl
         +:+ lines +:+ nl
         +:+ "Respond with JSON array with fields: title, message, urgency (high/medium/low), action (route path)." +:+ nl +:+ nl
         +:+ "Example: [{'title': 'Low Activity', 'message': 'Try a 15-minute walk', 'urgency': 'high', 'action': '/wellness-center'}]" +:+ nl in
       let* text := generate_content prompt in
       extract_json "["%char "]"%char text (generate_mock_action_items metrics))
      (fun e => generate_mock_action_items metrics).

Definition anomaly_line (a : list (string * Py.json)) : string :=
  "- " +:+ format_value (default (Py.JStr "Unknown issue") (Py.lookup "reason" (Py.JDict a))).

Fixpoint join (sep : string) (parts : list string) : string :=
  match parts with
  | [] => EmptyString
  | [part] => part
  | part :: parts' => part +:+ sep +:+ join sep parts'
  end.

Definition generate_health_alert_with_llm
    (anomalies : option (list (list (string * Py.json)))) : Py.result Py.json :=
  if negb GEMINI_AVAILABLE || no_anomalies anomalies then generate_mock_alert anomalies
  else
    Py.try_except
      (let anomalies_text := join nl (map anomaly_line (default [] anomalies)) in
       let prompt :=
         nl +:+ "Create a brief health alert based on these anomalies:" +:+ nl
         +:+ anomalies_text +:+ nl +:+ nl
         +:+ "Respond with JSON: {'type': 'critical' or 'warning', 'message': '...', 'details': '...'}" +:+ nl
         +:+ "Keep message under 60 chars, details under 100 chars." +:+ nl in
       let* text := generate_content prompt in
       extract_json "{"%char "}"%char text (generate_mock_alert anomalies))
      (fun e => generate_mock_alert anomalies).

(** A route: the helper's value under [key] with status 200, or, when the
    helper raises, [HTTPException(status_code=500, detail=str(e))]. *)
Definition route (key : string) (helper : Py.result Py.json) : Response :=
  match helper with
  | Py.Ok v => HTTP200 (Py.JDict [(key, v)])
  | Py.Raise e => HTTP500 (Py.str_exn e)
  end.

Definition navbar_greeting (request : NavGreetingRequest) : Response :=
  route "greeting"
    (let* greeting :=
       generate_greeting_with_llm (greeting_metrics request) (greeting_timestamp request) in
     Py.Ok (Py.JStr greeting)).

Definition health_status_badge (request : HealthStatusRequest) : Response :=
  route "status" (generate_health_status_with_llm (status_metrics request)).

Definition nav_recommendations (request : NavRecommendationsRequest) : Response :=
  route "recommendations"
    (generate_nav_recommendations_with_llm (nav_metrics request) (currentPage request)).

Definition action_items (request : ActionItemsRequest) : Response :=
  route "actions" (generate_action_items_with_llm (action_metrics request)).

Definition health_alert (request : HealthAlertRequest) : Response :=
  route "alert" (generate_health_alert_with_llm (anomalies request)).

(** *** Degrading to the mock generators *)

(** The completion service is down: the client library is missing, or every
    call raises. *)
Definition service_down : Prop :=
  GEMINI_AVAILABLE = false \/
  forall prompt, exists e, generate_content prompt = Py.Raise e.

(** Every field of the metrics is a number. *)
Definition numeric (metrics : MetricsInput) : Prop :=
  is_Some (avgSteps metrics) /\ is_Some (avgHeartRate metrics) /\
  is_Some (avgSleep metrics) /\ is_Some (avgWater metrics).

(** With the service down, [try: <build the prompt, call the service and
    post-process>  except Exception: mock] is the mock generator. *)
Lemma try_prompt_falls_back {A} (lines : Py.result string) (prompt : string -> string)
    (post : string -> Py.result A) (mock : Py.result A) :
  (forall p, exists e, generate_content p = Py.Raise e) ->
  Py.try_except
    (let* l := lines in let* text := generate_content (prompt l) in post text)
    (fun _ => mock) = mock.
Proof.
  intros Hdown. destruct lines as [l | e]; simpl; [| reflexivity].
  destruct (Hdown (prompt l)) as [e ->]. reflexivity.
Qed.

Lemma greeting_falls_back metrics timestamp :
  service_down ->
  generate_greeting_with_llm metrics timestamp = generate_mock_greeting metrics.
Proof.
  unfold generate_greeting_with_llm. intros [-> | Hdown]; [reflexivity |].
  destruct GEMINI_AVAILABLE; [| reflexivity]. simpl.
  by apply (try_prompt_falls_back (metric_lines metrics)).
Qed.

Lemma health_status_falls_back metrics :
  service_down ->
  generate_health_status_with_llm metrics = generate_mock_health_status metrics.
Proof.
  unfold generate_health_status_with_llm. intros [-> | Hdown]; [reflexivity |].
  destruct GEMINI_AVAILABLE; [| reflexivity]. simpl.
  by apply (try_prompt_falls_back (metric_lines metrics)).
Qed.

Lemma nav_recommendations_fall_back metrics current_page :
  service_down ->
  generate_nav_recommendations_with_llm metrics current_page
  = generate_mock_nav_recommendations current_page.
Proof.
  unfold generate_nav_recommendations_with_llm. intros [-> | Hdown]; [reflexivity |].
  destruct GEMINI_AVAILABLE; [| reflexivity]. simpl.
  by apply (try_prompt_falls_back (metric_lines metrics)).
Qed.

Lemma action_items_fall_back metrics :
  service_down ->
  generate_action_items_with_llm metrics = generate_mock_action_items metrics.
Proof.
  unfold generate_action_items_with_llm. intros [-> | Hdown]; [reflexivity |].
  destruct GEMINI_AVAILABLE; [| reflexivity]. simpl.
  by apply (try_prompt_falls_back (metric_lines metrics)).
Qed.

Lemma health_alert_falls_back anomalies :
  service_down ->
  generate_health_alert_with_llm anomalies = generate_mock_alert anomalies.
Proof.
  unfold generate_health_alert_with_llm. intros [-> | Hdown]; [reflexivity |].
  destruct GEMINI_AVAILABLE; [| reflexivity]. simpl.
  destruct (no_anomalies anomalies); [reflexivity |].
  by apply (try_prompt_falls_back (Py.Ok EmptyString) (fun _ => _)).
Qed.

(** The mock generators return on numeric metrics; the two that do not read
    the metrics always return. *)
Lemma mock_greeting_returns metrics :
  numeric metrics -> exists g, generate_mock_greeting metrics = Py.Ok g.
Proof.
  intros ([steps Hs] & _). unfold generate_mock_greeting. rewrite Hs. simpl. eauto.
Qed.

Lemma mock_health_status_returns metrics :
  numeric metrics -> exists v, generate_mock_health_status metrics = Py.Ok v.
Proof.
  intros ([steps Hs] & [hr Hh] & [sleep Hsl] & [water Hw]).
  unfold generate_mock_health_status. rewrite Hs, Hh, Hsl, Hw. simpl.
  repeat case_match; eauto.
Qed.

Lemma mock_action_items_returns metrics :
  numeric metrics -> exists v, generate_mock_action_items metrics = Py.Ok v.
Proof.
  intros ([steps Hs] & _ & [sleep Hsl] & _).
  unfold generate_mock_action_items. rewrite Hs, Hsl. simpl. eauto.
Qed.

Lemma mock_nav_recommendations_returns current_page :
  exists v, generate_mock_nav_recommendations current_page = Py.Ok v.
Proof. unfold generate_mock_nav_recommendations. vm_compute (_ !! "/"). eauto. Qed.

Lemma mock_alert_returns anomalies :
  exists v, generate_mock_alert anomalies = Py.Ok v.
Proof. destruct anomalies as [[| first rest] |]; simpl; eauto. Qed.

(** With the service down, an endpoint answers 200 with its mock content
    whenever its mock generator returns: always for nav-recommendations and
    health-alert, and on numeric metrics for the other three. *)
Lemma endpoints_degrade_on_numeric_metrics :
  service_down ->
  (forall request, numeric (greeting_metrics request) ->
     exists g, generate_mock_greeting (greeting_metrics request) = Py.Ok g /\
               navbar_greeting request = HTTP200 (Py.JDict [("greeting", Py.JStr g)])) /\
  (forall request, numeric (status_metrics request) ->
     exists v, generate_mock_health_status (status_metrics request) = Py.Ok v /\
               health_status_badge request = HTTP200 (Py.JDict [("status", v)])) /\
  (forall request,
     exists v, generate_mock_nav_recommendations (currentPage request) = Py.Ok v /\
               nav_recommendations request = HTTP200 (Py.JDict [("recommendations", v)])) /\
  (forall request, numeric (action_metrics request) ->
     exists v, generate_mock_action_items (action_metrics request) = Py.Ok v /\
               action_items request = HTTP200 (Py.JDict [("actions", v)])) /\
  (forall request,
     exists v, generate_mock_alert (anomalies request) = Py.Ok v /\
               health_alert request = HTTP200 (Py.JDict [("alert", v)])).
Proof.
  intros Hdown. repeat split.
  - intros request Hnum. destruct (mock_greeting_returns _ Hnum) as [g Hg].
    exists g. split; [exact Hg |].
    unfold navbar_greeting. by rewrite greeting_falls_back, Hg.
  - intros request Hnum. destruct (mock_health_status_returns _ Hnum) as [v Hv].
    exists v. split; [exact Hv |].
    unfold health_status_badge. by rewrite health_status_falls_back, Hv.
  - intros request. destruct (mock_nav_recommendations_returns (currentPage request)) as [v Hv].
    exists v. split; [exact Hv |].
    unfold nav_recommendations. by rewrite nav_recommendations_fall_back, Hv.
  - intros request Hnum. destruct (mock_action_items_returns _ Hnum) as [v Hv].
    exists v. split; [exact Hv |].
    unfold action_items. by rewrite action_items_fall_back, Hv.
  - intros request. destruct (mock_alert_returns (anomalies request)) as [v Hv].
    exists v. split; [exact Hv |].
    unfold health_alert. by rewrite health_alert_falls_back, Hv.
Qed.

End Endpoints.

(** *** A null metric reaches the 500 branch *)

(** A completion service whose every call raises. *)
Definition unreachable_service (prompt : string) : Py.result string :=
  Py.Raise (Py.Exception "503 service unavailable").

(** A well-formed metrics payload: [{"avgSteps": null, "avgHeartRate": 70,
    "avgSleep": 8, "avgWater": 2}]. *)
Definition null_steps : MetricsInput :=
  {| avgSteps := None; avgHeartRate := Some 70; avgSleep := Some 8; avgWater := Some 2 |}.

(** C7 fails on the code: with the completion service raising on every
    call, whether or not the client library is present, a request whose
    [avgSteps] is null makes the mock generator itself raise [TypeError]
    inside the helper's [except] branch; the route's handler turns it into
    HTTP 500.  This holds for navbar-greeting, health-status-badge and
    action-items. *)
Theorem null_metric_reaches_http_500
    (available : bool) (json_loads : string -> Py.result Py.json)
    (format_float : nat -> Q -> string) :
  navbar_greeting available unreachable_service format_float
    {| greeting_metrics := null_steps; greeting_timestamp := "2024-01-01T09:00:00" |}
  = HTTP500 "'>=' not supported between instances of 'NoneType' and 'int'" /\
  health_status_badge available unreachable_service json_loads format_float
    {| status_metrics := null_steps |}
  = HTTP500 "unsupported operand type(s) for /: 'NoneType' and 'int'" /\
  action_items available unreachable_service json_loads format_float
    {| action_metrics := null_steps |}
  = HTTP500 "'<' not supported between instances of 'NoneType' and 'int'".
Proof. destruct available; repeat split; reflexivity. Qed.

(** The same requests with numeric metrics are answered from the mocks. *)
Example numeric_metrics_reach_http_200 :
  navbar_greeting true unreachable_service (fun _ _ => "0")
    {| greeting_metrics :=
         {| avgSteps := Some 9000; avgHeartRate := Some 70;
            avgSleep := Some 8; avgWater := Some 2 |};
       greeting_timestamp := "2024-01-01T09:00:00" |}
  = HTTP200 (Py.JDict [("greeting", Py.JStr "Good afternoon! Great job with your steps.")]).
Proof. reflexivity. Qed.

(** ** Further laws of the endpoints *)

(** A decoder that rejects every text. *)
Definition rejecting_decoder (text : string) : Py.result Py.json :=
  Py.Raise (Py.JSONDecodeError "Expecting value").

Lemma endpoints_degrade_on_numeric_metrics_witness :
  service_down true unreachable_service /\
  health_alert true unreachable_service rejecting_decoder (fun _ => "reason")
    {| anomalies := Some [[("reason", Py.JStr "Heart rate 105")]] |}
  = HTTP200 (Py.JDict [("alert",
       Py.JDict [ ("type", Py.JStr "warning");
                  ("message", Py.JStr "1 metrics need attention");
                  ("details", Py.JStr "Heart rate 105") ])]).
Proof.
  assert (Hdown : service_down true unreachable_service)
    by (right; intros prompt; by eexists).
  split; [exact Hdown |].
  destruct (endpoints_degrade_on_numeric_metrics true unreachable_service
              rejecting_decoder (fun _ _ => "0") (fun _ => "reason") Hdown)
    as (_ & _ & _ & _ & Halert).
  destruct (Halert {| anomalies := Some [[("reason", Py.JStr "Heart rate 105")]] |})
    as (v & Hv & ->).
  simpl in Hv. by injection Hv as <-.
Defined.

Lemma length_append (a b : string) :
  String.length (a +:+ b) = (String.length a + String.length b)%nat.
Proof. induction a as [| c a IH]; simpl; [reflexivity | by rewrite IH]. Qed.

Lemma length_substring_le (n m : nat) (s : string) :
  (String.length (String.substring n m s) <= m)%nat.
Proof.
  revert n m. induction s as [| c s IH]; intros [| n] [| m]; simpl; try lia.
  - specialize (IH 0%nat m). lia.
  - specialize (IH n 0%nat). lia.
  - specialize (IH n (S m)). lia.
Qed.

Lemma length_slice_prefix (s : string) (k : nat) :
  (String.length (Py.slice s 0 (Z.of_nat k)) <= k)%nat.
Proof.
  unfold Py.slice. simpl.
  etransitivity; [apply length_substring_le |].
  destruct (Z.ltb_spec (Z.of_nat k) 0); lia.
Qed.

(** A greeting is never longer than 100 characters, whether it comes from
    the model (a longer reply is cut to 97 characters and "...") or from the
    mock generator. *)
Theorem greeting_at_most_100_characters
    (available : bool) (generate_content : string -> Py.result string)
    (format_float : nat -> Q -> string)
    (metrics : MetricsInput) (timestamp greeting : string) :
  generate_greeting_with_llm available generate_content format_float metrics timestamp
    = Py.Ok greeting ->
  (String.length greeting <= 100)%nat.
Proof.
  assert (Hmock : generate_mock_greeting metrics = Py.Ok greeting ->
                  (String.length greeting <= 100)%nat).
  { unfold generate_mock_greeting. destruct (avgSteps metrics) as [steps |]; simpl;
      [| discriminate].
    destruct (Py.ge steps 8000); [| destruct (Py.ge steps 5000)];
      intros [= <-]; vm_compute; lia. }
  unfold generate_greeting_with_llm.
  destruct available; simpl; [| exact Hmock].
  destruct (metric_lines format_float metrics) as [lines | e]; simpl; [| exact Hmock].
  destruct (generate_content _) as [text | e]; simpl; [| exact Hmock].
  destruct (Z.gtb_spec (Py.len (Py.strip_char double_quote (Py.strip text))) 100)
    as [Hlong | Hshort]; intros [= <-].
  - rewrite length_append.
    pose proof (length_slice_prefix (Py.strip_char double_quote (Py.strip text)) 97)
      as Hcut.
    change (Z.of_nat 97) with 97%Z in Hcut.
    change (String.length "...") with 3%nat. lia.
  - unfold Py.len in Hshort. lia.
Qed.

Lemma greeting_at_most_100_characters_witness :
  exists greeting,
    generate_greeting_with_llm true
      (fun _ => Py.Ok "  'Hello and welcome back, keep moving, drink water, sleep well, breathe deeply, stretch often, smile a lot!'  ")
      (fun _ _ => "0")
      {| avgSteps := Some 9000; avgHeartRate := Some 70;
         avgSleep := Some 8; avgWater := Some 2 |} "2024-01-01T09:00:00"
    = Py.Ok greeting /\
    String.length greeting = 100%nat.
Proof.
  eexists. split; [reflexivity |].
  apply Nat.le_antisymm.
  - apply (greeting_at_most_100_characters true
             (fun _ => Py.Ok "  'Hello and welcome back, keep moving, drink water, sleep well, breathe deeply, stretch often, smile a lot!'  ")
             (fun _ _ => "0")
             {| avgSteps := Some 9000; avgHeartRate := Some 70;
                avgSleep := Some 8; avgWater := Some 2 |} "2024-01-01T09:00:00").
    reflexivity.
  - vm_compute. lia.
Defined.



(** The score behind the mock badge. *)
Definition mock_score (steps sleep hr water : Q) : Q :=
  (steps / 10000) * (3 # 10) + (sleep / 8) * (3 # 10)
  + ((100 - Qabs (hr - 70)) / 100) * (2 # 10) + (water / (25 # 10)) * (2 # 10).


(** The mock action items are never empty: one item per problem found (low
    activity below 5000 steps, inadequate sleep below 6.5 hours), and the
    single item "Keep it Up!" exactly when no problem is found. *)
Theorem mock_action_items_never_empty (metrics : MetricsInput) (steps sleep : Q) :
  avgSteps metrics = Some steps ->
  avgSleep metrics = Some sleep ->
  exists items,
    generate_mock_action_items metrics = Py.Ok (Py.JList items) /\
    (1 <= length items <= 2)%nat /\
    (5000 <= steps /\ (65 # 10) <= sleep <->
     items = [action_item "Keep it Up!" "Your health looks great" "low" "/"]) /\
    (steps < 5000 <->
     action_item "Low Activity" "Try a 15-minute walk" "high" "/wellness-center" ∈ items) /\
    (sleep < (65 # 10) <->
     action_item "Inadequate Sleep" "Aim for 7-9 hours tonight" "high" "/insights" ∈ items).
Proof.
  intros Hs Hl. unfold generate_mock_action_items. rewrite Hs, Hl. simpl.
  destruct (Py.lt_reflect steps 5000) as [H5 | H5],
           (Py.lt_reflect sleep (65 # 10)) as [H6 | H6]; simpl;
    (eexists; split; [reflexivity |]); simpl;
    (split; [lia |]); (split; [| split]); (split; intros Hx);
    first [ lra
          | destruct Hx; lra
          | discriminate Hx
          | reflexivity
          | solve [repeat first [apply list_elem_of_here | apply list_elem_of_further]]
          | solve [repeat (apply elem_of_cons in Hx as [Hx | Hx]; [discriminate Hx |]);
                   by apply elem_of_nil in Hx] ].
Qed.

Lemma mock_action_items_never_empty_witness :
  avgSteps null_steps = None /\
  exists items,
    generate_mock_action_items
      {| avgSteps := Some 4000; avgHeartRate := None;
         avgSleep := Some 8; avgWater := None |} = Py.Ok (Py.JList items) /\
    (1 <= length items <= 2)%nat.
Proof.
  split; [reflexivity |].
  destruct (mock_action_items_never_empty
              {| avgSteps := Some 4000; avgHeartRate := None;
                 avgSleep := Some 8; avgWater := None |} 4000 8 eq_refl eq_refl)
    as (items & Hrun & Hlen & _).
  by exists items.
Defined.

(** The mock navigation always offers two links; a page other than "/",
    "/trends" and "/insights" gets the links of "/". *)
Theorem mock_nav_recommendations_two_links (current_page : string) :
  (exists a b, generate_mock_nav_recommendations current_page = Py.Ok (Py.JList [a; b])) /\
  (current_page <> "/trends" -> current_page <> "/insights" ->
   generate_mock_nav_recommendations current_page
   = Py.Ok (Py.JList [ nav_item "View Trends" "TrendingUp" "/trends";
                       nav_item "Get Insights" "Lightbulb" "/insights" ])).
Proof.
  unfold generate_mock_nav_recommendations, recommendations_map.
  rewrite lookup_insert_eq.
  destruct (decide (current_page = "/")) as [-> | H0].
  { rewrite lookup_insert_eq. simpl. split; [by eexists _, _ | done]. }
  rewrite (lookup_insert_ne _ "/" current_page) by done.
  destruct (decide (current_page = "/trends")) as [-> | H1].
  { rewrite lookup_insert_eq. simpl. split; [by eexists _, _ | done]. }
  rewrite (lookup_insert_ne _ "/trends" current_page) by done.
  destruct (decide (current_page = "/insights")) as [-> | H2].
  { rewrite lookup_insert_eq. simpl. split; [by eexists _, _ | done]. }
  rewrite (lookup_insert_ne _ "/insights" current_page) by done.
  rewrite lookup_empty. simpl. split; [by eexists _, _ | done].
Qed.

(** Without anomalies, [None] or an empty list, the alert endpoint answers
    200 with a null alert and never consults the model.  With anomalies and
    the model down, the alert is a warning that counts the anomalies and
    quotes the reason of the first one, or a fixed text when it has none. *)
Theorem health_alert_contents
    (available : bool) (generate_content : string -> Py.result string)
    (json_loads : string -> Py.result Py.json) (format_value : Py.json -> string) :
  health_alert available generate_content json_loads format_value
    {| anomalies := None |} = HTTP200 (Py.JDict [("alert", Py.JNull)]) /\
  health_alert available generate_content json_loads format_value
    {| anomalies := Some [] |} = HTTP200 (Py.JDict [("alert", Py.JNull)]) /\
  forall first rest,
    service_down available generate_content ->
    health_alert available generate_content json_loads format_value
      {| anomalies := Some (first :: rest) |}
    = HTTP200 (Py.JDict [("alert",
        Py.JDict [ ("type", Py.JStr "warning");
                   ("message",
                    Py.JStr (pretty (S (length rest)) +:+ " metrics need attention"));
                   ("details",
                    default (Py.JStr "Review your health data")
                      (Py.lookup "reason" (Py.JDict first))) ])]).
Proof.
  split; [| split].
  - unfold health_alert, generate_health_alert_with_llm. simpl.
    by rewrite orb_true_r.
  - unfold health_alert, generate_health_alert_with_llm. simpl.
    by rewrite orb_true_r.
  - intros first rest Hdown. unfold health_alert. cbn [anomalies].
    rewrite health_alert_falls_back by exact Hdown. reflexivity.
Qed.

End NavbarAI.

(* ===================================================================== *)
(** * AI/multi_agent_system.py, continued: the insight agent and the      *)
(** * orchestrator                                                         *)
(* ===================================================================== *)
Module InsightGenerator.
Import MultiAgentSystem GeminiAgent.

(** One element of the ["insights"] list.  In the AI path the message is
    whatever the model put in its list; in the basic path it is a text. *)
Record Insight : Type := {
  insight_type : string;
  title : string;
  message : Py.json;
  priority : string
}.

(** The dict returned by [_analyze]; ["gemini_summary"] exists in the AI
    path only. *)
Record Analysis : Type := {
  insights : list Insight;
  wellness_score : Py.json;
  gemini_summary : option Py.json;
  ai_powered : bool
}.

(** [v[:n]] followed by iteration: a list gives its first [n] items, a text
    its first [n] characters; nothing else can be sliced. *)
Definition chars (s : string) : list Py.json :=
  map (fun c => Py.JStr (String c EmptyString)) (String.list_ascii_of_string s).

Definition slice_items (n : nat) (v : Py.json) : Py.result (list Py.json) :=
  match v with
  | Py.JList items => Py.Ok (take n items)
  | Py.JStr s => Py.Ok (take n (chars s))
  | Py.JDict _ => Py.Raise (Py.TypeError "unhashable type: 'slice'")
  | _ => Py.Raise (Py.TypeError "object is not subscriptable")
  end.

Definition recommendation_insight (rec : Py.json) : Insight :=
  {| insight_type := "recommendation"; title := "AI Recommendation";
     message := rec; priority := "medium" |}.

Definition risk_insight (risk : Py.json) : Insight :=
  {| insight_type := "warning"; title := "Health Risk";
     message := risk; priority := "high" |}.

Section Agent.

Variable generate_content : string -> Py.result string.
Variable json_loads : string -> Py.result Py.json.
Variable format_number : Q -> string.
Variable json_dumps_trends : gmap string TrendResult -> string.
Variable json_dumps_anomalies : list Anomaly -> string.

(** [f"{x:,.0f}"] and [f"{x:.1f}"] *)
Variable format_thousands : Q -> string.
Variable format_one_decimal : Q -> string.

Definition _basic_analysis (data : HealthData) : Analysis :=
  let summary := default ∅ (summary data) in
  let insights := [] in
  let avg_steps := Py.get summary "steps_avg_7d" 0 in
  let insights :=
    if Py.lt avg_steps 5000 then
      insights ++ [ {| insight_type := "warning";
                       title := "Increase Daily Activity";
                       message :=
                         Py.JStr ("Consider increasing from " +:+ format_thousands avg_steps
                                  +:+ " to 8,000+ steps daily.");
                       priority := "medium" |} ]
    else insights in
  let avg_sleep := Py.get summary "sleep_avg_7d" 0 in
  let insights :=
    if Py.lt avg_sleep 7 then
      insights ++ [ {| insight_type := "warning";
                       title := "Sleep Optimization Needed";
                       message :=
                         Py.JStr ("Current " +:+ format_one_decimal avg_sleep
                                  +:+ "h average is below recommended 7-9 hours.");
                       priority := "high" |} ]
    else insights in
  {| insights := insights;
     wellness_score := Py.JNum (InsightGeneratorAgent._calculate_wellness_score summary);
     gemini_summary := None;
     ai_powered := false |}.

Definition _analyze (data : HealthData) : Py.result Analysis :=
  Py.try_except
    (let* gemini_result :=
       generate_health_insights generate_content json_loads format_number
         json_dumps_trends json_dumps_anomalies data in
     if bool_decide (status gemini_result = "success") then
       let gemini_insights := GeminiAgent.insights gemini_result in
       let insights := [] in
       let* recommendations := json_get gemini_insights "recommendations" (Py.JList []) in
       let* recs := slice_items 3 recommendations in
       let insights := insights ++ map recommendation_insight recs in
       let* risks := json_get gemini_insights "risks" (Py.JList []) in
       let* risks := slice_items 2 risks in
       let insights := insights ++ map risk_insight risks in
       let* score := json_get gemini_insights "wellness_score" (Py.JNum 75) in
       let* text := json_get gemini_insights "summary" (Py.JStr EmptyString) in
       Py.Ok {| insights := insights;
                wellness_score := score;
                gemini_summary := Some text;
                ai_powered := true |}
     else Py.Ok (_basic_analysis data))
    (fun e => Py.Ok (_basic_analysis data)).

End Agent.

(** ** Laws of the insight agent *)

Section AgentLaws.

Variable generate_content : string -> Py.result string.
Variable json_loads : string -> Py.result Py.json.
Variable format_number : Q -> string.
Variable json_dumps_trends : gmap string TrendResult -> string.
Variable json_dumps_anomalies : list Anomaly -> string.
Variable format_thousands : Q -> string.
Variable format_one_decimal : Q -> string.


Lemma slice_items_length n v items :
  slice_items n v = Py.Ok items -> (length items <= n)%nat.
Proof.
  destruct v; simpl; try discriminate; intros [= <-]; rewrite length_take; lia.
Qed.

(** The agent always answers.  An answer that is not AI powered is the
    basic analysis of the same data: this is what a failed or unusable model
    reply degrades to, also a reply whose recommendations or risks cannot be
    sliced.  An AI-powered answer comes from a "success" reply and holds at
    most 3 recommendations of medium priority followed by at most 2 warnings
    of high priority. *)
Theorem insight_agent_ai_or_basic (data : HealthData) :
  exists r : Analysis,
    _analyze generate_content json_loads format_number json_dumps_trends
      json_dumps_anomalies format_thousands format_one_decimal data = Py.Ok r /\
    (ai_powered r = false ->
     r = _basic_analysis format_thousands format_one_decimal data) /\
    (ai_powered r = true ->
     (exists g,
        generate_health_insights generate_content json_loads format_number
          json_dumps_trends json_dumps_anomalies data = Py.Ok g /\
        status g = "success") /\
     exists recs risks,
       insights r = map recommendation_insight recs ++ map risk_insight risks /\
       (length recs <= 3)%nat /\ (length risks <= 2)%nat /\
       (length (insights r) <= 5)%nat).
Proof.
  unfold _analyze.
  destruct (generate_health_insights _ _ _ _ _ data) as [g | e] eqn:Hg; simpl;
    [| eexists; split; [reflexivity |]; split; [done | discriminate]].
  case_bool_decide as Hstatus; simpl;
    [| eexists; split; [reflexivity |]; split; [done | discriminate]].
  destruct (json_get (GeminiAgent.insights g) "recommendations" _) as [recs_v | e]; simpl;
    [| eexists; split; [reflexivity |]; split; [done | discriminate]].
  destruct (slice_items 3 recs_v) as [recs | e] eqn:Hrecs; simpl;
    [| eexists; split; [reflexivity |]; split; [done | discriminate]].
  destruct (json_get (GeminiAgent.insights g) "risks" _) as [risks_v | e]; simpl;
    [| eexists; split; [reflexivity |]; split; [done | discriminate]].
  destruct (slice_items 2 risks_v) as [risks | e] eqn:Hrisks; simpl;
    [| eexists; split; [reflexivity |]; split; [done | discriminate]].
  destruct (json_get (GeminiAgent.insights g) "wellness_score" _) as [score | e]; simpl;
    [| eexists; split; [reflexivity |]; split; [done | discriminate]].
  destruct (json_get (GeminiAgent.insights g) "summary" _) as [text | e]; simpl;
    [| eexists; split; [reflexivity |]; split; [done | discriminate]].
  eexists. split; [reflexivity |]. simpl. split; [discriminate |].
  intros _. split; [by exists g |].
  exists recs, risks. split; [reflexivity |].
  apply slice_items_length in Hrecs. apply slice_items_length in Hrisks.
  rewrite length_app, !length_map. lia.
Qed.

End AgentLaws.

(** A decoded value is a dict, on which every [get] returns, or it is not,
    and then every [get] raises. *)
Lemma json_get_or_raise_cases (v : Py.json) :
  (exists fields, v = Py.JDict fields) \/
  (forall key dflt, json_get v key dflt
                    = Py.Raise (Py.Exception "object has no attribute 'get'")).
Proof. destruct v; first [by left; eexists | by right]. Qed.

End InsightGenerator.

Module MultiAgentHealthSystem.
Import MultiAgentSystem GeminiAgent.

(** What [HealthAnalysisAgent.process] returns and appends to the agent's
    memory. *)
Record Processed (A : Type) : Type := {
  agent : string;
  processed_at : string;
  input_data : HealthData;
  analysis : A
}.
Arguments agent {A} _.
Arguments processed_at {A} _.
Arguments input_data {A} _.
Arguments analysis {A} _.

(** The ["summary"] of a session result. *)
Record SessionSummary : Type := {
  wellness_score : Py.json;
  total_anomalies : nat;
  key_recommendations : list Py.json
}.

Record SessionResult : Type := {
  session_id : string;
  timestamp : string;
  result_trends : Processed TrendAnalysisAgent.Analysis;
  result_anomalies : Processed AnomalyDetectionAgent.Analysis;
  result_insights : Processed InsightGenerator.Analysis;
  session_summary : SessionSummary
}.

(** The system: the memory of each of its three agents and its own session
    memory. *)
Record t : Type := {
  trend_memory : list (Processed TrendAnalysisAgent.Analysis);
  anomaly_memory : list (Processed AnomalyDetectionAgent.Analysis);
  insight_memory : list (Processed InsightGenerator.Analysis);
  session_memory : list SessionResult
}.

Definition __init__ : t :=
  {| trend_memory := []; anomaly_memory := []; insight_memory := [];
     session_memory := [] |}.

Section System.

Variable generate_content : string -> Py.result string.
Variable json_loads : string -> Py.result Py.json.
Variable format_number : Q -> string.
Variable json_dumps_trends : gmap string TrendResult -> string.
Variable json_dumps_anomalies : list Anomaly -> string.
Variable format_thousands : Q -> string.
Variable format_one_decimal : Q -> string.

(** [now.isoformat()] and [now.strftime('%Y%m%d_%H%M%S')] *)
Variable isoformat : Z -> string.
Variable strftime : Z -> string.

(** [HealthAnalysisAgent.process]: the new memory and the result. *)
Definition process {A} (name : string) (_analyze : HealthData -> Py.result A)
    (memory : list (Processed A)) (data : HealthData) (now : Z)
  : Py.result (list (Processed A) * Processed A) :=
  let* analysis := _analyze data in
  let result := {| agent := name; processed_at := isoformat now;
                   input_data := data; analysis := analysis |} in
  Py.Ok (memory ++ [result], result).

(** The clock is read once by each agent and twice for the session result. *)
Definition analyze_health_data (self : t) (health_data : HealthData)
    (now_trend now_anomaly now_insight now_id now_stamp : Z)
  : Py.result (t * SessionResult) :=
  let* trend := process "TrendAnalyzer" TrendAnalysisAgent._analyze
                  (trend_memory self) health_data now_trend in
  let trend_result := trend.2 in
  let* anomaly := process "AnomalyDetector"
                    (fun data => Py.Ok (AnomalyDetectionAgent._analyze data))
                    (anomaly_memory self) health_data now_anomaly in
  let anomaly_result := anomaly.2 in
  let combined_data :=
    {| summary := summary health_data;
       timeseries := timeseries health_data;
       agent_results :=
         Some {| ar_trends := Some (TrendAnalysisAgent.trends (analysis trend_result));
                 ar_anomalies :=
                   Some (AnomalyDetectionAgent.anomalies (analysis anomaly_result)) |} |} in
  let* insight := process "InsightGenerator"
                    (InsightGenerator._analyze generate_content json_loads format_number
                       json_dumps_trends json_dumps_anomalies
                       format_thousands format_one_decimal)
                    (insight_memory self) combined_data now_insight in
  let insight_result := insight.2 in
  let session_result :=
    {| session_id := "session_" +:+ strftime now_id;
       timestamp := isoformat now_stamp;
       result_trends := trend_result;
       result_anomalies := anomaly_result;
       result_insights := insight_result;
       session_summary :=
         {| wellness_score := InsightGenerator.wellness_score (analysis insight_result);
            total_anomalies :=
              length (AnomalyDetectionAgent.anomalies (analysis anomaly_result));
            key_recommendations :=
              map InsightGenerator.message
                (filter (fun i => InsightGenerator.priority i = "high" \/
                                  InsightGenerator.priority i = "medium")
                   (InsightGenerator.insights (analysis insight_result))) |} |} in
  Py.Ok ({| trend_memory := trend.1;
            anomaly_memory := anomaly.1;
            insight_memory := insight.1;
            session_memory := session_memory self ++ [session_result] |},
         session_result).

End System.

Definition get_session_history (self : t) : list SessionResult := session_memory self.

(** ** Laws of the orchestrator *)

Section SystemLaws.

Variable generate_content : string -> Py.result string.
Variable json_loads : string -> Py.result Py.json.
Variable format_number : Q -> string.
Variable json_dumps_trends : gmap string TrendResult -> string.
Variable json_dumps_anomalies : list Anomaly -> string.
Variable format_thousands : Q -> string.
Variable format_one_decimal : Q -> string.
Variable isoformat : Z -> string.
Variable strftime : Z -> string.

Definition actionable (i : InsightGenerator.Insight) : Prop :=
  InsightGenerator.priority i = "high" \/ InsightGenerator.priority i = "medium".

(** The insight agent returns, and every insight it returns has priority
    high or medium. *)
Lemma insight_agent_returns (data : HealthData) :
  exists r,
    InsightGenerator._analyze generate_content json_loads format_number
      json_dumps_trends json_dumps_anomalies format_thousands format_one_decimal data
    = Py.Ok r /\
    Forall actionable (InsightGenerator.insights r).
Proof.
  assert (Hbasic : Forall actionable
            (InsightGenerator.insights
               (InsightGenerator._basic_analysis format_thousands format_one_decimal data))).
  { unfold InsightGenerator._basic_analysis. cbn [InsightGenerator.insights].
    destruct (Py.lt _ 5000), (Py.lt _ 7);
      repeat (apply List.Forall_cons; [first [by left | by right] |]);
      apply List.Forall_nil. }
  unfold InsightGenerator._analyze.
  destruct (generate_health_insights _ _ _ _ _ data) as [g | e]; simpl;
    [| by eexists].
  case_bool_decide; simpl; [| by eexists].
  destruct (InsightGenerator.json_get_or_raise_cases (GeminiAgent.insights g)) as [Hd | Hn].
  - destruct Hd as [fields ->]. simpl.
    destruct (InsightGenerator.slice_items 3 _) as [recs | e]; simpl; [| by eexists].
    destruct (InsightGenerator.slice_items 2 _) as [risks | e]; simpl; [| by eexists].
    eexists. split; [reflexivity |]. simpl.
    apply Forall_app. split; apply Forall_forall; intros i Hi;
      apply list_elem_of_fmap in Hi as (v & -> & _); [by right | by left].
  - rewrite Hn. simpl. by eexists.
Qed.

(** One analysis pass on a series whose records all carry a value returns,
    and what it returns is one snapshot of the input: each agent's result and
    the session result are appended to their memories; the trend and the
    anomaly agent saw the input itself, the insight agent saw the input with
    exactly the trends and anomalies of this pass; the summary counts the
    anomalies that the detector reports, copies the insight agent's score,
    and lists the message of every insight. *)
Theorem analysis_pass_is_one_snapshot
    (self : t) (health_data : HealthData)
    (now_trend now_anomaly now_insight now_id now_stamp : Z) :
  Forall has_value (default [] (timeseries health_data)) ->
  exists (self' : t) (r : SessionResult),
    analyze_health_data generate_content json_loads format_number json_dumps_trends
      json_dumps_anomalies format_thousands format_one_decimal isoformat strftime
      self health_data now_trend now_anomaly now_insight now_id now_stamp
    = Py.Ok (self', r) /\
    session_memory self' = session_memory self ++ [r] /\
    trend_memory self' = trend_memory self ++ [result_trends r] /\
    anomaly_memory self' = anomaly_memory self ++ [result_anomalies r] /\
    insight_memory self' = insight_memory self ++ [result_insights r] /\
    input_data (result_trends r) = health_data /\
    input_data (result_anomalies r) = health_data /\
    input_data (result_insights r)
      = {| summary := summary health_data;
           timeseries := timeseries health_data;
           agent_results :=
             Some {| ar_trends :=
                       Some (TrendAnalysisAgent.trends (analysis (result_trends r)));
                     ar_anomalies := Some (detect health_data) |} |} /\
    TrendAnalysisAgent._analyze health_data = Py.Ok (analysis (result_trends r)) /\
    total_anomalies (session_summary r) = length (detect health_data) /\
    wellness_score (session_summary r)
      = InsightGenerator.wellness_score (analysis (result_insights r)) /\
    key_recommendations (session_summary r)
      = map InsightGenerator.message
          (InsightGenerator.insights (analysis (result_insights r))).
Proof.
  intros Hall.
  destruct (analyze_total health_data Hall) as (trend_analysis & Htrend & _).
  unfold analyze_health_data, process. rewrite Htrend. cbn [Py.bind fst snd analysis].
  match goal with
  | |- context [InsightGenerator._analyze _ _ _ _ _ _ _ ?d] =>
      destruct (insight_agent_returns d) as (insight_analysis & -> & Hprio)
  end.
  cbn [Py.bind fst snd analysis].
  eexists _, _. split; [reflexivity |].
  cbn [session_memory trend_memory anomaly_memory insight_memory result_trends
       result_anomalies result_insights session_summary input_data analysis
       total_anomalies wellness_score key_recommendations].
  repeat (split; [reflexivity |]).
  f_equal. clear -Hprio.
  induction Hprio as [| i l Hi _ IH]; [reflexivity |].
  rewrite filter_cons, decide_True by exact Hi. by f_equal.
Qed.


(** A record without a value, in a metric observed twice, makes the whole
    pass raise [KeyError]. *)
Example analysis_pass_key_error :
  analyze_health_data timing_out loads_empty_object show_number show_no_trends
    show_no_anomalies show_number show_number pretty pretty __init__
    (series_data [ mk_item "2024-01-01" "steps" 8500;
                   {| item_day := Some "2024-01-02"; item_metric := Some "steps";
                      item_value := None |} ])
    1%Z 2%Z 3%Z 4%Z 5%Z
  = Py.Raise (Py.KeyError "value").
Proof. reflexivity. Qed.

End SystemLaws.

Lemma analysis_pass_is_one_snapshot_witness :
  Forall has_value (default [] (timeseries sample_data)) /\
  exists (self' : t) (r : SessionResult),
    analyze_health_data timing_out loads_empty_object show_number show_no_trends
      show_no_anomalies show_number show_number pretty pretty
      __init__ sample_data 1%Z 2%Z 3%Z 4%Z 5%Z = Py.Ok (self', r) /\
    total_anomalies (session_summary r) = 2%nat /\
    length (session_memory self') = 1%nat.
Proof.
  assert (Hall : Forall has_value (default [] (timeseries sample_data))).
  { repeat (constructor; [by eexists |]). constructor. }
  split; [exact Hall |].
  destruct (analysis_pass_is_one_snapshot timing_out loads_empty_object show_number
              show_no_trends show_no_anomalies show_number show_number pretty pretty
              __init__ sample_data 1%Z 2%Z 3%Z 4%Z 5%Z Hall)
    as (self' & r & Hrun & Hmem & _ & _ & _ & _ & _ & _ & _ & Hcount & _).
  exists self', r. split; [exact Hrun |]. split.
  - rewrite Hcount. vm_compute. reflexivity.
  - rewrite Hmem. reflexivity.
Defined.

End MultiAgentHealthSystem.
